(** * PiPyCamera: the labeled slider widget ([labeledverticalslider.py])

    A shallow embedding of the class [LabeledVerticalSlider] and of the part
    of Qt's [QSlider] it drives, followed by the properties of the value
    selector: closest-match resolution, the slider index, the displayed text,
    the change notification and the exceptions the methods raise.

    The class is generic in [_T = int | float]. The widget is embedded at
    the [int] instance, Python integers being the unbounded [Z]; what is
    proved of it is proved of integer values and integer requests. The
    closest-match scan is embedded at the [float] instance as well, over
    binary64 numbers, where rounding decides differently. *)

From Stdlib Require Import ZArith List String Lia Bool DecimalString Sorted.
From Stdlib Require PrimFloat.
Import ListNotations.
Open Scope string_scope.
Open Scope Z_scope.

(** ** Python values *)

(** The exceptions that the methods of the class can raise. *)
Inductive PyExc : Type :=
| IndexError
| ValueError
| AttributeError (name : string)
| TypeError.

(** The [data_type] argument of the constructor: stored, never read. *)
Inductive PyType : Type := PyInt | PyFloat.

(** [closest_diff] starts at [math.inf] and afterwards holds an integer. *)
Inductive ext : Type :=
| Fin (z : Z)
| Inf.

Definition ext_eqb (a b : ext) : bool :=
  match a, b with
  | Fin x, Fin y => x =? y
  | Inf, Inf => true
  | _, _ => false
  end.

Definition ext_ltb (a b : ext) : bool :=
  match a, b with
  | Fin x, Fin y => x <? y
  | Fin _, Inf => true
  | Inf, _ => false
  end.

(** [str(z)] for an integer, and the f-string [f'{x}'] of [x : int | None]. *)
Definition py_str (z : Z) : string := NilZero.string_of_int (Z.to_int z).

Definition py_format (x : option Z) : string :=
  match x with
  | Some z => py_str z
  | None => "None"
  end.

(** [repr] of a list of integers, as [print] shows it. *)
Fixpoint py_join (l : list Z) : string :=
  match l with
  | [] => ""
  | [z] => py_str z
  | z :: r => py_str z ++ ", " ++ py_join r
  end.

Definition py_repr_list (l : list Z) : string := "[" ++ py_join l ++ "]".

(** [l[i]]: a negative index counts from the end; [None] is [IndexError]. *)
Definition py_getitem (l : list Z) (i : Z) : option Z :=
  let n := Z.of_nat (List.length l) in
  let j := if i <? 0 then i + n else i in
  if (j <? 0) || (n <=? j) then None else nth_error l (Z.to_nat j).

(** [float(z)], as the toolkit converts an integer handed to a signal that
    is declared with a [float] argument: the binary64 number nearest to [z],
    ties to the even mantissa. A double of magnitude 2^53 or more is an
    integer, and below 2^53 every integer is a double, so the result is given
    by its integer value. Beyond the largest double there is no result, and
    the call raises [TypeError]. *)
Definition round_to_double (n : Z) : Z :=
  let bits := Z.log2 n + 1 in
  if bits <=? 53 then n
  else
    let shift := bits - 53 in
    let q := Z.shiftr n shift in
    let r := n - Z.shiftl q shift in
    let half := Z.shiftl 1 (shift - 1) in
    let q' := if (half <? r) || ((r =? half) && Z.odd q) then q + 1 else q in
    Z.shiftl q' shift.

Definition py_float (z : Z) : option Z :=
  let m := round_to_double (Z.abs z) in
  if 2 ^ 1024 <=? m then None else Some (Z.sgn z * m).

(** [l.index(x)]: the first position holding [x]; [None] is [ValueError]. *)
Fixpoint py_index (l : list Z) (x : Z) : option nat :=
  match l with
  | [] => None
  | y :: r => if y =? x then Some 0%nat else option_map S (py_index r x)
  end.

(** ** The slider of the toolkit

    [QSlider] keeps a range and a value. [setRange] stores
    [maximum = max(minimum, maximum)] and re-bounds the value; [setValue]
    bounds its argument to the range and signals [valueChanged] with the new
    value only when the value changes. The second component of a result is
    the argument of the signal, if it is emitted. *)
Module QSlider.

Record t : Type := mk { minimum : Z; maximum : Z; value : Z }.

(** A fresh slider has range 0..99 and value 0. *)
Definition new : t := mk 0 99 0.

Definition bound (s : t) (v : Z) : Z :=
  Z.max (minimum s) (Z.min (maximum s) v).

Definition setValue (v : Z) (s : t) : t * option Z :=
  let v' := bound s v in
  if value s =? v' then (s, None)
  else (mk (minimum s) (maximum s) v', Some v').

Definition setRange (lo hi : Z) (s : t) : t * option Z :=
  let s' := mk lo (Z.max lo hi) (value s) in
  if (minimum s =? minimum s') && (maximum s =? maximum s') then (s, None)
  else setValue (value s) s'.

End QSlider.

(** ** The widget *)

(** The attributes of an instance that the methods read or write, the text of
    the label [lbl_value], the numbers the signal [value_changed] delivered
    (oldest first; the signal is [pyqtSignal(float)], so each is the double
    made of the integer handed to [emit]) and the lines printed. *)
Record LabeledVerticalSlider : Type := mkWidget {
  display_text : string;
  values : list Z;
  default : option Z;
  data_type : PyType;
  _internal_value : option Z;
  slider : QSlider.t;
  lbl_value : string;
  value_changed : list Z;
  stdout : list string
}.

(** *** Methods as state transformers

    A method runs on the instance and either returns or raises; what it
    assigned before raising stays assigned. *)
Inductive outcome (A : Type) : Type :=
| Ok (a : A)
| Raise (e : PyExc).
Arguments Ok {A} a.
Arguments Raise {A} e.

Definition M (A : Type) : Type :=
  LabeledVerticalSlider -> outcome A * LabeledVerticalSlider.

Definition ret {A} (a : A) : M A := fun self => (Ok a, self).

Definition raise {A} (e : PyExc) : M A := fun self => (Raise e, self).

Definition bind {A B} (m : M A) (f : A -> M B) : M B :=
  fun self =>
    match m self with
    | (Ok a, self') => f a self'
    | (Raise e, self') => (Raise e, self')
    end.

Declare Scope py_scope.
Delimit Scope py_scope with py.
Notation "x <- m ;; k" := (bind m (fun x => k))
  (at level 100, m at next level, right associativity) : py_scope.
Notation "m ;; k" := (bind m (fun _ => k))
  (at level 100, right associativity) : py_scope.
Open Scope py_scope.

Definition get : M LabeledVerticalSlider := fun self => (Ok self, self).

Definition modify (f : LabeledVerticalSlider -> LabeledVerticalSlider) : M unit :=
  fun self => (Ok tt, f self).

Definition set_values (vs : list Z) (w : LabeledVerticalSlider) :=
  mkWidget (display_text w) vs (default w) (data_type w) (_internal_value w)
           (slider w) (lbl_value w) (value_changed w) (stdout w).

Definition set_internal_value (x : option Z) (w : LabeledVerticalSlider) :=
  mkWidget (display_text w) (values w) (default w) (data_type w) x
           (slider w) (lbl_value w) (value_changed w) (stdout w).

Definition set_slider (q : QSlider.t) (w : LabeledVerticalSlider) :=
  mkWidget (display_text w) (values w) (default w) (data_type w)
           (_internal_value w) q (lbl_value w) (value_changed w) (stdout w).

Definition set_lbl_value (txt : string) (w : LabeledVerticalSlider) :=
  mkWidget (display_text w) (values w) (default w) (data_type w)
           (_internal_value w) (slider w) txt (value_changed w) (stdout w).

Definition add_emission (v : Z) (w : LabeledVerticalSlider) :=
  mkWidget (display_text w) (values w) (default w) (data_type w)
           (_internal_value w) (slider w) (lbl_value w)
           (value_changed w ++ [v])%list (stdout w).

Definition add_line (line : string) (w : LabeledVerticalSlider) :=
  mkWidget (display_text w) (values w) (default w) (data_type w)
           (_internal_value w) (slider w) (lbl_value w) (value_changed w)
           (stdout w ++ [line])%list.

(** [print(a, b, ...)] writes its arguments separated by spaces. *)
Definition print (line : string) : M unit := modify (add_line line).

(** [self.value_changed.emit(v)]: the integer is converted to the signal's
    [float] argument; the receivers get the double, and an integer beyond
    the doubles raises [TypeError]. *)
Definition emit (v : Z) : M unit :=
  match py_float v with
  | Some d => modify (add_emission d)
  | None => raise TypeError
  end.

(** [self.lbl_value.setText(txt)] *)
Definition setText (txt : string) : M unit := modify (set_lbl_value txt).

(** [self.field]: no method assigns an attribute [field] and neither the class
    nor [QWidget] declares one, so the lookup raises. *)
Definition self_field : M string := raise (AttributeError "field").

(** [self.slider.getValue]: [QSlider] reads its value with [value()] and has
    no member [getValue], so the lookup raises. *)
Definition slider_getValue : M Z := raise (AttributeError "getValue").

(** *** [_value_changed], the slot connected to [slider.valueChanged] *)
Definition _value_changed (new_value : Z) : M unit :=
  self <- get ;;
  print ("_value_changed " ++ display_text self ++ " " ++ py_str new_value) ;;
  match py_getitem (values self) new_value with
  | None =>
      print ("new_value not found " ++ py_str new_value) ;;
      field <- self_field ;;
      print ("field: " ++ field) ;;
      ret tt
  | Some value =>
      emit value ;;
      setText (py_str value)
  end.

(** [self.slider.setValue(i)], and equally the user dragging the handle to
    position [i]: the slider takes the bounded value and, when it changed,
    its signal runs the connected slot before the call returns. An exception
    of the slot is the outcome of the call. *)
Definition slider_setValue (i : Z) : M unit :=
  self <- get ;;
  let (q, signal) := QSlider.setValue i (slider self) in
  modify (set_slider q) ;;
  match signal with
  | Some j => _value_changed j
  | None => ret tt
  end.

(** *** [getClosestValue] *)
Fixpoint closest_loop (next_val : Z) (vs : list Z)
                      (closest : option Z) (closest_diff : ext) : option Z :=
  match vs with
  | [] => closest
  | v :: rest =>
      let diff := Z.abs (next_val - v) in
      if ext_eqb (Fin diff) closest_diff then Some v
      else if ext_ltb (Fin diff) closest_diff
           then closest_loop next_val rest (Some v) (Fin diff)
           else closest_loop next_val rest closest closest_diff
  end.

Definition getClosestValue (self : LabeledVerticalSlider) (next_val : Z)
  : option Z :=
  closest_loop next_val (values self) None Inf.

(** *** [setValue] *)
Definition setValue (new_value : Z) : M unit :=
  self <- get ;;
  print ("setValue " ++ display_text self ++ " " ++ py_str new_value) ;;
  modify (set_internal_value (Some new_value)) ;;
  self <- get ;;
  let closest := getClosestValue self new_value in
  match closest with
  | Some c =>
      match py_index (values self) c with
      | Some i => slider_setValue (Z.of_nat i)
      | None => raise ValueError
      end
  | None => ret tt
  end ;;
  setText (py_format closest).

(** *** [setNewValues] *)
Definition setNewValues (new_values : list Z) : M unit :=
  self <- get ;;
  print ("setNewValues " ++ display_text self ++ " " ++ py_repr_list new_values) ;;
  modify (set_values new_values) ;;
  v <- slider_getValue ;;
  setValue v.

(** *** [value] *)
Definition value : M Z :=
  self <- get ;;
  match _internal_value self with
  | Some v => ret v
  | None =>
      match py_getitem (values self) (QSlider.value (slider self)) with
      | Some v => ret v
      | None => raise IndexError
      end
  end.

(** *** Construction: [__init__], [_setup_ui], [_reset_value] *)

(** Of [_setup_ui] only the slider's range and the empty value label bear on
    the state; the range is set before the slot is connected. *)
Definition _setup_ui : M unit :=
  self <- get ;;
  modify (set_slider
            (fst (QSlider.setRange 0 (Z.of_nat (List.length (values self)) - 1)
                                   QSlider.new))) ;;
  setText "".

Definition _reset_value : M unit :=
  self <- get ;;
  match default self with
  | Some d =>
      match py_index (values self) d with
      | Some i => slider_setValue (Z.of_nat i)
      | None => raise ValueError
      end
  | None => ret tt
  end.

Definition __init__ (display_text : string) (values : list Z)
                    (default : option Z) (data_type : PyType)
  : outcome unit * LabeledVerticalSlider :=
  (_setup_ui ;; _reset_value)
    (mkWidget display_text values default data_type default
              QSlider.new "" [] []).

(** A user who drags the handle to position [i] drives the same path. *)
Definition user_moves_slider (i : Z) : M unit := slider_setValue i.

(** *** The closest-match rule in the words of the specification

    Scan front to back with a tracked pair (closest, closest difference):
    a strictly smaller difference replaces the pair, a difference equal to the
    tracked one returns the value being visited at once, and the end of the
    scan returns the tracked value, which is nothing when nothing was seen. *)
Fixpoint closest_match_scan (v : Z) (D : list Z) (best : option (Z * Z))
  : option Z :=
  match D with
  | [] => option_map fst best
  | x :: D' =>
      let d := Z.abs (v - x) in
      match best with
      | None => closest_match_scan v D' (Some (x, d))
      | Some (c, cd) =>
          if d =? cd then Some x
          else if d <? cd then closest_match_scan v D' (Some (x, d))
               else closest_match_scan v D' best
      end
  end.

Definition closest_match_spec (D : list Z) (v : Z) : option Z :=
  closest_match_scan v D None.

(** ** The state a widget is in

    [zero_based]: the slider's range starts at 0, which [_setup_ui]
    establishes and no method changes. [in_sync]: moreover the range is that of
    the positions of [values] and the value lies in it. *)
Definition zero_based (w : LabeledVerticalSlider) : Prop :=
  QSlider.minimum (slider w) = 0 /\ 0 <= QSlider.maximum (slider w).

Definition in_sync (w : LabeledVerticalSlider) : Prop :=
  QSlider.minimum (slider w) = 0 /\
  QSlider.maximum (slider w) = Z.max 0 (Z.of_nat (List.length (values w)) - 1) /\
  0 <= QSlider.value (slider w) <= QSlider.maximum (slider w).

(** An integer that the signal can carry. *)
Definition converts (x : Z) : Prop := py_float x <> None.

(** A number the signal delivers for one of the values: the double of an
    element. *)
Definition double_of_value (D : list Z) (d : Z) : Prop :=
  exists x, In x D /\ py_float x = Some d.

(** ** The closest-match scan at [_T = float]

    [getClosestValue] over binary64 numbers: the difference, its absolute
    value and the two comparisons are those of the floating-point unit, and
    [closest_diff] starts at infinity. *)
Module FloatInstance.

Import PrimFloat.

Fixpoint closest_loop (next_val : float) (vs : list float)
                      (closest : option float) (closest_diff : float)
  : option float :=
  match vs with
  | [] => closest
  | v :: rest =>
      let diff := abs (sub next_val v) in
      if eqb diff closest_diff then Some v
      else if ltb diff closest_diff
           then closest_loop next_val rest (Some v) diff
           else closest_loop next_val rest closest closest_diff
  end.

Definition getClosestValue (values : list float) (next_val : float)
  : option float :=
  closest_loop next_val values None infinity.

(** [float(z)] for an integer below 2^53 in magnitude, where it is exact. *)
Fixpoint float_of_pos (p : positive) : float :=
  match p with
  | xH => 1%float
  | xO q => mul 2%float (float_of_pos q)
  | xI q => add (mul 2%float (float_of_pos q)) 1%float
  end.

Definition float_of_Z (z : Z) : float :=
  match z with
  | Z0 => 0%float
  | Zpos p => float_of_pos p
  | Zneg p => opp (float_of_pos p)
  end.

(** Whether the request [v] is resolved to a value equal to [x]. *)
Definition resolves_to (values : list float) (v x : float) : bool :=
  match getClosestValue values v with
  | Some r => eqb r x
  | None => false
  end.

(** The doubles 1e17 and -1e17 (10^17 is 5^17 * 2^17, and 5^17 is below
    2^53, so both are binary64 numbers). *)
Definition plus_1e17 : float := 1e17%float.
Definition minus_1e17 : float := (-1e17)%float.

(** Strictly ascending, by the comparison of the floating-point unit. *)
Fixpoint ascending (vs : list float) : bool :=
  match vs with
  | a :: (b :: _) as rest => ltb a b && ascending rest
  | _ => true
  end.

End FloatInstance.

(** ** Sequences of calls on a widget

    What the owner of a widget and its user can do to it once it is built:
    call [setValue] and move the slider. *)
Inductive call : Type :=
| CallSetValue (v : Z)
| CallUserMove (i : Z).

Definition run_call (c : call) : M unit :=
  match c with
  | CallSetValue v => setValue v
  | CallUserMove i => user_moves_slider i
  end.

Fixpoint run_calls (cs : list call) : M unit :=
  match cs with
  | [] => ret tt
  | c :: rest => run_call c ;; run_calls rest
  end.

(** * The application ([app.py])

    Of the class [PiCam] the embedding takes what decides the sliders and the
    status text: the tables of the sensor controls, the construction of their
    sliders, the status bar and the modes. The camera, the encoder and the
    layout are outside it. *)

(** A dict with string keys, in insertion order: [d[k]] and [d[k] = v]. *)
Fixpoint dict_get {V : Type} (d : list (string * V)) (k : string) : option V :=
  match d with
  | [] => None
  | (k', v) :: rest => if String.eqb k' k then Some v else dict_get rest k
  end.

Fixpoint dict_set {V : Type} (d : list (string * V)) (k : string) (v : V)
  : list (string * V) :=
  match d with
  | [] => [(k, v)]
  | (k', v') :: rest =>
      if String.eqb k' k then (k, v) :: rest else (k', v') :: dict_set rest k v
  end.

(** [list(range(start, stop, step))] for a positive [step]. *)
Definition py_range (start stop step : Z) : list Z :=
  map (fun k => start + Z.of_nat k * step)
      (seq 0 (Z.to_nat ((stop - start + step - 1) / step))).

(** The named tuple [ControlField], at [_T = int]. *)
Module ControlField.

Record t : Type := mk {
  field : string;
  title : string;
  data_type : PyType;
  values : list Z;
  value_default : option Z
}.

End ControlField.

Module PiCam.

Definition FPS_VALUES : list Z := (py_range 1 11 1 ++ [15; 20; 25; 30])%list.

Definition FIELD_LUX : string := "Lux".
Definition FIELD_COLOR_TEMP : string := "ColourTemperature".
Definition FIELD_SENSOR_TEMP : string := "SensorTemperature".
Definition FIELD_FRAME_DURATION : string := "FrameDuration".
Definition FIELD_EXPOSURE : string := "ExposureTime".
Definition FIELD_ANALOGUE_GAIN : string := "AnalogueGain".
Definition FIELD_FPS : string := "FrameRate".
Definition FIELD_CUSTOM_STATUS : string := "Status".

Definition MODE_CONFIG_SENSOR : string := "Sensor".
Definition MODE_CONFIG_IMAGE : string := "Image".
Definition MODE_TAKE_PHOTO : string := "Photo".
Definition MODE_TOGGLE_RECORDING : string := "Record".

Definition CONTROL_FIELDS_SENSOR : list string :=
  [FIELD_FPS; FIELD_EXPOSURE; FIELD_ANALOGUE_GAIN].

Definition STATUS_FIELDS : list string :=
  [FIELD_CUSTOM_STATUS; FIELD_EXPOSURE; FIELD_LUX; FIELD_ANALOGUE_GAIN;
   FIELD_COLOR_TEMP; FIELD_SENSOR_TEMP; FIELD_FRAME_DURATION].

(** The entries of [self.fields] for the sensor controls, as [__init__]
    writes them. The entries for the image controls hold floats; no slider is
    built from them and the functions below do not read them. *)
Definition sensor_fields : list (string * ControlField.t) :=
  [(FIELD_FPS, ControlField.mk FIELD_FPS "FPS" PyInt FPS_VALUES (Some 10));
   (FIELD_EXPOSURE,
    ControlField.mk FIELD_EXPOSURE "Exposure" PyInt
                    (py_range 0 (200000 + 10000) 10000) (Some 200000));
   (FIELD_ANALOGUE_GAIN,
    ControlField.mk FIELD_ANALOGUE_GAIN "Gain" PyInt (py_range 0 45 1) (Some 1))].

(** The values of the brightness control, [[x/10 for x in range(-10,11)]]:
    the doubles -1.0, -0.9, ..., 1.0. *)
Definition brightness_values : list PrimFloat.float :=
  map (fun x => PrimFloat.div (FloatInstance.float_of_Z x)
                              (FloatInstance.float_of_Z 10))
      (py_range (-10) 11 1).

(** The attributes of the application that the modelled methods use: the
    mode, the controls, the sliders, the text of each status label and
    whether the configuration screen is visible. *)
Record t : Type := mk {
  current_mode : option string;
  fields : list (string * ControlField.t);
  sliders : list (string * LabeledVerticalSlider);
  status_labels : list (string * string);
  ui_config_screen_visible : bool
}.

(** A method returns, or a dict misses a key, or a slider's constructor
    raised. *)
Inductive result : Type :=
| Done
| KeyError (key : string)
| Raised (e : PyExc).

Definition set_sliders (d : list (string * LabeledVerticalSlider)) (a : t) : t :=
  mk (current_mode a) (fields a) d (status_labels a) (ui_config_screen_visible a).

Definition set_status_labels (d : list (string * string)) (a : t) : t :=
  mk (current_mode a) (fields a) (sliders a) d (ui_config_screen_visible a).

Definition set_visible (b : bool) (a : t) : t :=
  mk (current_mode a) (fields a) (sliders a) (status_labels a) b.

Definition set_current_mode (m : option string) (a : t) : t :=
  mk m (fields a) (sliders a) (status_labels a) (ui_config_screen_visible a).

(** [self.status_labels[key].setText(text)] *)
Definition label_setText (key text : string) (a : t) : result * t :=
  match dict_get (status_labels a) key with
  | Some _ => (Done, set_status_labels (dict_set (status_labels a) key text) a)
  | None => (KeyError key, a)
  end.

(** The loop of [_setup_ui_config_screen]: one slider per sensor control,
    built from the control's entry in [fields]. Connecting the slider's
    signal to [_update_field] and placing it in the layout change nothing
    of the state kept here. *)
Fixpoint build_sliders (names : list string) (a : t) : result * t :=
  match names with
  | [] => (Done, a)
  | name :: rest =>
      match dict_get (fields a) name with
      | None => (KeyError name, a)
      | Some f =>
          match __init__ name (ControlField.values f)
                         (ControlField.value_default f)
                         (ControlField.data_type f) with
          | (Ok _, w) =>
              build_sliders rest (set_sliders (dict_set (sliders a) name w) a)
          | (Raise e, _) => (Raised e, a)
          end
      end
  end.

(** [_setup_ui_config_screen]: the sliders, and a configuration screen that
    is created and not yet shown. *)
Definition _setup_ui_config_screen (a : t) : result * t :=
  match build_sliders CONTROL_FIELDS_SENSOR (set_sliders [] a) with
  | (Done, a') => (Done, set_visible false a')
  | failed => failed
  end.

(** [_setup_ui_status_bar]: an empty label per status field, then the text
    of the status label. *)
Definition _setup_ui_status_bar (a : t) : result * t :=
  label_setText FIELD_CUSTOM_STATUS "Ready."
    (set_status_labels
       (fold_left (fun d name => dict_set d name "") STATUS_FIELDS []) a).

Definition set_status (status : string) (a : t) : result * t :=
  label_setText FIELD_CUSTOM_STATUS status a.

Definition mode_is (mode : option string) (name : string) : bool :=
  match mode with
  | Some m => String.eqb m name
  | None => false
  end.

Definition set_mode (mode : option string) (a : t) : result * t :=
  let a := set_visible false a in
  let a := set_visible false a in
  let (r, a) :=
    if mode_is mode MODE_CONFIG_SENSOR then (Done, set_visible false a)
    else if mode_is mode MODE_CONFIG_SENSOR then (Done, set_visible false a)
    else if mode_is mode MODE_TAKE_PHOTO then set_status "Taking photo..." a
    else if mode_is mode MODE_TOGGLE_RECORDING then set_status "Recording..." a
    else set_status "Ready." a in
  match r with
  | Done => (Done, set_current_mode mode a)
  | failed => (failed, a)
  end.

End PiCam.

(** The status text a mode asks for; the sensor mode asks for none. *)
Definition status_of_mode (mode : option string) (old : string) : string :=
  if PiCam.mode_is mode "Sensor" then old
  else if PiCam.mode_is mode "Photo" then "Taking photo..."
  else if PiCam.mode_is mode "Record" then "Recording..."
  else "Ready.".

(** The calls of [set_mode] one after another, stopping at a failure. *)
Fixpoint set_modes (modes : list (option string)) (a : PiCam.t)
  : PiCam.result * PiCam.t :=
  match modes with
  | [] => (PiCam.Done, a)
  | mode :: rest =>
      match PiCam.set_mode mode a with
      | (PiCam.Done, a') => set_modes rest a'
      | failed => failed
      end
  end.

Definition status_text_known (txt : string) : Prop :=
  txt = "Ready." \/ txt = "Taking photo..." \/ txt = "Recording...".

(** A slider that sits on position [k] of strictly ascending values, in
    step with them, and shows and answers the value [d]. *)
Definition slider_shows (w : LabeledVerticalSlider) (k d : Z) : Prop :=
  in_sync w /\
  Sorted Z.lt (values w) /\
  QSlider.value (slider w) = k /\
  py_getitem (values w) k = Some d /\
  lbl_value w = py_str d /\
  value w = (Ok d, w).

(** * Properties *)

(** ** Lists and indices *)

Lemma py_index_In (l : list Z) (x : Z) :
  In x l ->
  exists i, py_index l x = Some i /\ (i < List.length l)%nat /\ nth_error l i = Some x.
Proof.
  induction l as [|y r IH]; intros Hin; [contradiction|].
  cbn [py_index]. destruct (Z.eqb_spec y x) as [->|Hne].
  - exists 0%nat. cbn. repeat split; lia.
  - destruct Hin as [Heq|Hin]; [congruence|].
    destruct (IH Hin) as (i & Hi & Hlt & Hnth).
    exists (S i). rewrite Hi. cbn. repeat split; auto; lia.
Qed.

Lemma py_getitem_nonneg (l : list Z) (i : nat) :
  (i < List.length l)%nat -> py_getitem l (Z.of_nat i) = nth_error l i.
Proof.
  intros Hlt. unfold py_getitem.
  destruct (Z.ltb_spec (Z.of_nat i) 0) as [H|_]; [lia|].
  destruct (Z.ltb_spec (Z.of_nat i) 0) as [H|_]; [lia|].
  destruct (Z.leb_spec (Z.of_nat (List.length l)) (Z.of_nat i)) as [H|_]; [lia|].
  cbn. now rewrite Nat2Z.id.
Qed.

Lemma py_getitem_negative (l : list Z) (i : Z) :
  - Z.of_nat (List.length l) <= i <= -1 ->
  py_getitem l i = nth_error l (Z.to_nat (Z.of_nat (List.length l) + i)).
Proof.
  intros Hi. unfold py_getitem.
  destruct (Z.ltb_spec i 0) as [_|H]; [|lia].
  destruct (Z.ltb_spec (i + Z.of_nat (List.length l)) 0) as [H|_]; [lia|].
  destruct (Z.leb_spec (Z.of_nat (List.length l)) (i + Z.of_nat (List.length l)))
    as [H|_]; [lia|].
  cbn. now rewrite Z.add_comm.
Qed.

Lemma py_getitem_out (l : list Z) (i : Z) :
  Z.of_nat (List.length l) <= i \/ i < - Z.of_nat (List.length l) ->
  py_getitem l i = None.
Proof.
  intros Hi. unfold py_getitem.
  destruct (Z.ltb_spec i 0) as [Hneg|Hpos].
  - destruct (Z.ltb_spec (i + Z.of_nat (List.length l)) 0) as [_|H]; [reflexivity|lia].
  - destruct (Z.ltb_spec i 0) as [H|_]; [lia|].
    destruct (Z.leb_spec (Z.of_nat (List.length l)) i) as [_|H]; [reflexivity|lia].
Qed.

Lemma py_getitem_Some_In (l : list Z) (i x : Z) :
  py_getitem l i = Some x -> In x l.
Proof.
  unfold py_getitem.
  destruct (_ || _); [discriminate|]. apply nth_error_In.
Qed.

(** ** The closest-match scan *)

Lemma closest_loop_tracked (v : Z) (vs : list Z) (c d : Z) :
  exists r, closest_loop v vs (Some c) (Fin d) = Some r /\ (r = c \/ In r vs).
Proof.
  revert c d. induction vs as [|x rest IH]; intros c d; cbn [closest_loop].
  - exists c. auto.
  - cbn [ext_eqb ext_ltb].
    destruct (Z.abs (v - x) =? d).
    + exists x. cbn. auto.
    + destruct (Z.abs (v - x) <? d).
      * destruct (IH x (Z.abs (v - x))) as (r & Hr & [Heq|Hin]);
          exists r; cbn; auto.
      * destruct (IH c d) as (r & Hr & [Heq|Hin]); exists r; cbn; auto.
Qed.

Lemma getClosestValue_cons (w : LabeledVerticalSlider) (v x : Z) (rest : list Z) :
  values w = x :: rest ->
  getClosestValue w v = closest_loop v rest (Some x) (Fin (Z.abs (v - x))).
Proof.
  intros Hv. unfold getClosestValue. rewrite Hv. reflexivity.
Qed.

Lemma getClosestValue_In (w : LabeledVerticalSlider) (v : Z) :
  values w <> [] ->
  exists c, getClosestValue w v = Some c /\ In c (values w).
Proof.
  intros Hne. destruct (values w) as [|x rest] eqn:Hv; [congruence|].
  rewrite (getClosestValue_cons w v x rest Hv).
  destruct (closest_loop_tracked v rest x (Z.abs (v - x))) as (r & Hr & [Heq|Hin]);
    exists r; cbn; auto.
Qed.

Lemma getClosestValue_nil (w : LabeledVerticalSlider) (v : Z) :
  values w = [] -> getClosestValue w v = None.
Proof.
  intros Hv. unfold getClosestValue. now rewrite Hv.
Qed.

Lemma closest_loop_scan (v : Z) (vs : list Z) (c d : Z) :
  closest_loop v vs (Some c) (Fin d) = closest_match_scan v vs (Some (c, d)).
Proof.
  revert c d. induction vs as [|x rest IH]; intros c d; cbn; [reflexivity|].
  destruct (Z.abs (v - x) =? d); [reflexivity|].
  destruct (Z.abs (v - x) <? d); apply IH.
Qed.

(** ** The conversion to a double *)

Lemma py_float_exact (z : Z) : Z.abs z < 2 ^ 53 -> py_float z = Some z.
Proof.
  intros Hz. unfold py_float, round_to_double.
  assert (Hlog : Z.log2 (Z.abs z) < 53).
  { destruct (Z.eq_dec (Z.abs z) 0) as [->|Hne]; [reflexivity|].
    apply Z.log2_lt_pow2; lia. }
  destruct (Z.leb_spec (Z.log2 (Z.abs z) + 1) 53) as [_|H]; [|lia].
  destruct (Z.leb_spec (2 ^ 1024) (Z.abs z)) as [H|_].
  - exfalso. assert (2 ^ 53 < 2 ^ 1024) by (apply Z.pow_lt_mono_r; lia). lia.
  - f_equal. clear. destruct z; reflexivity.
Qed.

Lemma converts_Some (x : Z) : converts x -> exists d, py_float x = Some d.
Proof.
  unfold converts. destruct (py_float x) as [d|]; [eauto|congruence].
Qed.

Lemma converts_In (l : list Z) (x : Z) :
  Forall converts l -> In x l -> exists d, py_float x = Some d.
Proof.
  intros Hall Hin. apply converts_Some.
  rewrite Forall_forall in Hall. now apply Hall.
Qed.

(** ** Running the methods *)

Ltac run := unfold bind, get, print, setText, modify, ret, raise; cbn.

Lemma set_slider_same (w : LabeledVerticalSlider) : set_slider (slider w) w = w.
Proof. now destruct w. Qed.

Lemma _value_changed_found (w : LabeledVerticalSlider) (i x d : Z) :
  py_getitem (values w) i = Some x ->
  py_float x = Some d ->
  _value_changed i w =
    (Ok tt,
     set_lbl_value (py_str x)
       (add_emission d
          (add_line ("_value_changed " ++ display_text w ++ " " ++ py_str i) w))).
Proof.
  intros Hx Hd. unfold _value_changed. run. rewrite Hx.
  unfold emit. rewrite Hd. reflexivity.
Qed.

Lemma _value_changed_unconvertible (w : LabeledVerticalSlider) (i x : Z) :
  py_getitem (values w) i = Some x ->
  py_float x = None ->
  _value_changed i w =
    (Raise TypeError,
     add_line ("_value_changed " ++ display_text w ++ " " ++ py_str i) w).
Proof.
  intros Hx Hd. unfold _value_changed. run. rewrite Hx.
  unfold emit. rewrite Hd. reflexivity.
Qed.

Lemma _value_changed_missing (w : LabeledVerticalSlider) (i : Z) :
  py_getitem (values w) i = None ->
  _value_changed i w =
    (Raise (AttributeError "field"),
     add_line ("new_value not found " ++ py_str i)
       (add_line ("_value_changed " ++ display_text w ++ " " ++ py_str i) w)).
Proof.
  intros Hx. unfold _value_changed, self_field. run. now rewrite Hx.
Qed.

Lemma slider_setValue_same (w : LabeledVerticalSlider) (i : Z) :
  QSlider.bound (slider w) i = QSlider.value (slider w) ->
  slider_setValue i w = (Ok tt, w).
Proof.
  intros Hb. unfold slider_setValue, QSlider.setValue. run.
  rewrite Hb, Z.eqb_refl. run. now rewrite set_slider_same.
Qed.

Lemma slider_setValue_changed (w : LabeledVerticalSlider) (i : Z) :
  QSlider.bound (slider w) i <> QSlider.value (slider w) ->
  slider_setValue i w =
    _value_changed (QSlider.bound (slider w) i)
      (set_slider (QSlider.mk (QSlider.minimum (slider w))
                              (QSlider.maximum (slider w))
                              (QSlider.bound (slider w) i)) w).
Proof.
  intros Hb. unfold slider_setValue, QSlider.setValue. run.
  destruct (Z.eqb_spec (QSlider.value (slider w)) (QSlider.bound (slider w) i));
    [congruence|reflexivity].
Qed.

(** The three ways the slot can end, on a widget [w1]. *)
Lemma _value_changed_cases (w1 : LabeledVerticalSlider) (j : Z) :
  (exists x d,
      py_getitem (values w1) j = Some x /\ py_float x = Some d /\
      _value_changed j w1 =
        (Ok tt,
         set_lbl_value (py_str x)
           (add_emission d
              (add_line ("_value_changed " ++ display_text w1 ++ " " ++ py_str j)
                        w1)))) \/
  (exists x,
      py_getitem (values w1) j = Some x /\ py_float x = None /\
      _value_changed j w1 =
        (Raise TypeError,
         add_line ("_value_changed " ++ display_text w1 ++ " " ++ py_str j) w1)) \/
  (py_getitem (values w1) j = None /\
   _value_changed j w1 =
     (Raise (AttributeError "field"),
      add_line ("new_value not found " ++ py_str j)
        (add_line ("_value_changed " ++ display_text w1 ++ " " ++ py_str j) w1))).
Proof.
  destruct (py_getitem (values w1) j) as [x|] eqn:Hx.
  - destruct (py_float x) as [d|] eqn:Hd.
    + left. exists x, d. repeat split; try assumption.
      now apply _value_changed_found.
    + right; left. exists x. repeat split; try assumption.
      apply (_value_changed_unconvertible w1 j x); assumption.
  - right; right. split; [reflexivity|]. now apply _value_changed_missing.
Qed.

(** Whatever its outcome, setting the slider keeps the values, the value
    given to the widget and its name, and leaves the slider as the toolkit
    sets it. *)
Lemma slider_setValue_internal (w : LabeledVerticalSlider) (i : Z) :
  _internal_value (snd (slider_setValue i w)) = _internal_value w /\
  values (snd (slider_setValue i w)) = values w.
Proof.
  destruct (Z.eq_dec (QSlider.bound (slider w) i) (QSlider.value (slider w)))
    as [Hb|Hb].
  - rewrite (slider_setValue_same w i Hb). auto.
  - rewrite (slider_setValue_changed w i Hb).
    set (w1 := set_slider _ w).
    destruct (_value_changed_cases w1 (QSlider.bound (slider w) i))
      as [(x & d & _ & _ & ->)|[(x & _ & _ & ->)|(_ & ->)]]; auto.
Qed.

Lemma slider_setValue_text (w : LabeledVerticalSlider) (i : Z) :
  display_text (snd (slider_setValue i w)) = display_text w.
Proof.
  destruct (Z.eq_dec (QSlider.bound (slider w) i) (QSlider.value (slider w)))
    as [Hb|Hb].
  - rewrite (slider_setValue_same w i Hb). auto.
  - rewrite (slider_setValue_changed w i Hb).
    set (w1 := set_slider _ w).
    destruct (_value_changed_cases w1 (QSlider.bound (slider w) i))
      as [(x & d & _ & _ & ->)|[(x & _ & _ & ->)|(_ & ->)]]; auto.
Qed.

Lemma slider_setValue_slider (w : LabeledVerticalSlider) (i : Z) :
  slider (snd (slider_setValue i w)) = fst (QSlider.setValue i (slider w)).
Proof.
  unfold QSlider.setValue.
  destruct (Z.eq_dec (QSlider.bound (slider w) i) (QSlider.value (slider w)))
    as [Hb|Hb].
  - rewrite (slider_setValue_same w i Hb), Hb, Z.eqb_refl. reflexivity.
  - rewrite (slider_setValue_changed w i Hb).
    destruct (Z.eqb_spec (QSlider.value (slider w)) (QSlider.bound (slider w) i));
      [congruence|].
    set (w1 := set_slider _ w).
    destruct (_value_changed_cases w1 (QSlider.bound (slider w) i))
      as [(x & d & _ & _ & ->)|[(x & _ & _ & ->)|(_ & ->)]]; reflexivity.
Qed.

(** What setting the slider to position [i] does when the position it takes
    is one of [values] and holds an integer the signal can carry. *)
Lemma slider_setValue_run (w : LabeledVerticalSlider) (i : Z) :
  0 <= QSlider.bound (slider w) i < Z.of_nat (List.length (values w)) ->
  Forall converts (values w) ->
  exists w',
    slider_setValue i w = (Ok tt, w') /\
    values w' = values w /\
    _internal_value w' = _internal_value w /\
    display_text w' = display_text w /\
    slider w' = fst (QSlider.setValue i (slider w)) /\
    match snd (QSlider.setValue i (slider w)) with
    | None => lbl_value w' = lbl_value w /\ value_changed w' = value_changed w
    | Some j =>
        exists x d, py_getitem (values w) j = Some x /\
                    py_float x = Some d /\
                    lbl_value w' = py_str x /\
                    value_changed w' = (value_changed w ++ [d])%list
    end.
Proof.
  intros Hrange Hconv.
  destruct (Z.eq_dec (QSlider.bound (slider w) i) (QSlider.value (slider w)))
    as [Hb|Hb].
  - rewrite (slider_setValue_same w i Hb). exists w.
    unfold QSlider.setValue. rewrite Hb, Z.eqb_refl. cbn. auto 10.
  - rewrite (slider_setValue_changed w i Hb).
    destruct (nth_error (values w) (Z.to_nat (QSlider.bound (slider w) i)))
      as [x|] eqn:Hnth.
    2:{ apply nth_error_None in Hnth. lia. }
    assert (Hget : py_getitem (values w) (QSlider.bound (slider w) i) = Some x).
    { rewrite <- (Z2Nat.id (QSlider.bound (slider w) i)) by lia.
      rewrite py_getitem_nonneg by lia. exact Hnth. }
    destruct (converts_In _ x Hconv (nth_error_In _ _ Hnth)) as (d & Hd).
    rewrite (_value_changed_found _ _ x d) by assumption.
    eexists. split; [reflexivity|].
    unfold QSlider.setValue.
    destruct (Z.eqb_spec (QSlider.value (slider w)) (QSlider.bound (slider w) i));
      [congruence|].
    cbn. repeat split; auto. exists x, d. auto.
Qed.

Lemma setValue_unfold (w : LabeledVerticalSlider) (v : Z) :
  setValue v w =
    ((match getClosestValue w v with
      | Some c =>
          match py_index (values w) c with
          | Some i => slider_setValue (Z.of_nat i)
          | None => raise ValueError
          end
      | None => ret tt
      end ;;
      setText (py_format (getClosestValue w v)))
       (set_internal_value (Some v)
          (add_line ("setValue " ++ display_text w ++ " " ++ py_str v) w))).
Proof. reflexivity. Qed.

(** [setValue] returns on every widget whose slider range starts at 0 and
    whose values the signal can carry, and this is what it leaves. *)
Lemma setValue_run (w : LabeledVerticalSlider) (v : Z) :
  zero_based w ->
  Forall converts (values w) ->
  exists w',
    setValue v w = (Ok tt, w') /\
    values w' = values w /\
    display_text w' = display_text w /\
    _internal_value w' = Some v /\
    lbl_value w' = py_format (getClosestValue w v) /\
    match getClosestValue w v with
    | None => slider w' = slider w /\ value_changed w' = value_changed w
    | Some c =>
        exists i,
          py_index (values w) c = Some i /\
          nth_error (values w) i = Some c /\
          slider w' = fst (QSlider.setValue (Z.of_nat i) (slider w)) /\
          match snd (QSlider.setValue (Z.of_nat i) (slider w)) with
          | None => value_changed w' = value_changed w
          | Some j =>
              exists x d, py_getitem (values w) j = Some x /\
                          py_float x = Some d /\
                          value_changed w' = (value_changed w ++ [d])%list
          end
    end.
Proof.
  intros [Hmin Hmax] Hconv. rewrite setValue_unfold.
  destruct (getClosestValue w v) as [c|] eqn:Hc.
  - assert (Hin : In c (values w)).
    { destruct (values w) as [|x rest] eqn:Hv.
      - rewrite (getClosestValue_nil w v Hv) in Hc. discriminate.
      - destruct (getClosestValue_In w v) as (c' & Hc' & Hin'); [congruence|].
        rewrite Hv in Hin'. congruence. }
    destruct (py_index_In _ _ Hin) as (i & Hi & Hlt & Hnth). rewrite Hi.
    set (w2 := set_internal_value _ _).
    destruct (slider_setValue_run w2 (Z.of_nat i))
      as (w3 & Hrun & Hv3 & Hi3 & Ht3 & Hs3 & Hsig).
    { subst w2. cbn. unfold QSlider.bound. lia. }
    { exact Hconv. }
    unfold bind at 1. rewrite Hrun. run.
    eexists. split; [reflexivity|]. cbn.
    rewrite Hv3, Hi3, Ht3, Hs3. subst w2. cbn. repeat split; auto.
    exists i. repeat split; auto.
    cbn in Hsig. destruct (snd (QSlider.setValue (Z.of_nat i) (slider w))).
    + destruct Hsig as (x & d & Hx & Hd & _ & He). exists x, d. auto.
    + tauto.
  - run. eexists. split; [reflexivity|]. cbn. auto 10.
Qed.

(** ** Invariants of the slider *)

Lemma in_sync_zero_based (w : LabeledVerticalSlider) : in_sync w -> zero_based w.
Proof. intros (Hmin & Hmax & Hv). split; [exact Hmin|lia]. Qed.

Lemma QSlider_setValue_range (i : Z) (q : QSlider.t) :
  QSlider.minimum (fst (QSlider.setValue i q)) = QSlider.minimum q /\
  QSlider.maximum (fst (QSlider.setValue i q)) = QSlider.maximum q.
Proof.
  unfold QSlider.setValue. destruct (_ =? _); cbn; auto.
Qed.

Lemma QSlider_setValue_value (i : Z) (q : QSlider.t) :
  QSlider.value (fst (QSlider.setValue i q)) = QSlider.bound q i.
Proof.
  unfold QSlider.setValue.
  destruct (Z.eqb_spec (QSlider.value q) (QSlider.bound q i)); cbn; auto.
Qed.

Lemma QSlider_setValue_again (i : Z) (q : QSlider.t) :
  QSlider.setValue i (fst (QSlider.setValue i q)) = (fst (QSlider.setValue i q), None).
Proof.
  unfold QSlider.setValue at 1.
  rewrite QSlider_setValue_value.
  unfold QSlider.bound at 1 2.
  destruct (QSlider_setValue_range i q) as [-> ->].
  fold (QSlider.bound q i). now rewrite Z.eqb_refl.
Qed.

Lemma QSlider_setRange_new (n : Z) :
  QSlider.minimum (fst (QSlider.setRange 0 n QSlider.new)) = 0 /\
  QSlider.maximum (fst (QSlider.setRange 0 n QSlider.new)) = Z.max 0 n /\
  QSlider.value (fst (QSlider.setRange 0 n QSlider.new)) = 0.
Proof.
  unfold QSlider.setRange, QSlider.setValue, QSlider.bound, QSlider.new.
  cbn [QSlider.minimum QSlider.maximum QSlider.value].
  rewrite Z.eqb_refl. cbn [andb].
  destruct (Z.eqb_spec 99 (Z.max 0 n)) as [He|Hne]; cbn [fst].
  - cbn [QSlider.minimum QSlider.maximum QSlider.value]. repeat split; auto.
  - destruct (Z.eqb_spec 0 (Z.max 0 (Z.min (Z.max 0 n) 0))); cbn [fst];
      cbn [QSlider.minimum QSlider.maximum QSlider.value]; lia.
Qed.

Lemma _setup_ui_run (w : LabeledVerticalSlider) :
  exists w',
    _setup_ui w = (Ok tt, w') /\ in_sync w' /\
    values w' = values w /\ _internal_value w' = _internal_value w /\
    display_text w' = display_text w /\ default w' = default w /\
    lbl_value w' = "" /\ value_changed w' = value_changed w /\
    QSlider.value (slider w') = 0.
Proof.
  unfold _setup_ui. run. eexists. split; [reflexivity|].
  destruct (QSlider_setRange_new (Z.of_nat (List.length (values w)) - 1))
    as (Hmin & Hmax & Hval).
  unfold in_sync. cbn. rewrite Hmin, Hmax, Hval. repeat split; auto; lia.
Qed.

Lemma py_index_lt (l : list Z) (x : Z) (i : nat) :
  py_index l x = Some i -> (i < List.length l)%nat.
Proof.
  revert i. induction l as [|y r IH]; intros i Hi; [discriminate|].
  cbn in Hi. destruct (y =? x); [inversion Hi; cbn; lia|].
  destruct (py_index r x); [|discriminate]. inversion Hi. cbn.
  specialize (IH _ eq_refl). lia.
Qed.

(** A slider-driven change keeps the slider in step with the values,
    whatever its outcome. *)
Lemma user_moves_slider_in_sync (w : LabeledVerticalSlider) (i : Z) :
  in_sync w -> in_sync (snd (user_moves_slider i w)).
Proof.
  intros (Hmin & Hmax & Hval). unfold user_moves_slider, in_sync.
  destruct (slider_setValue_internal w i) as [_ ->].
  rewrite slider_setValue_slider.
  destruct (QSlider_setValue_range i (slider w)) as [-> ->].
  rewrite QSlider_setValue_value. unfold QSlider.bound. lia.
Qed.

(** What the constructor leaves is in step with the values, whether it
    returned or raised. *)
Lemma __init___in_sync (text : string) (D : list Z) (d : option Z) (ty : PyType) :
  in_sync (snd (__init__ text D d ty)) /\
  values (snd (__init__ text D d ty)) = D /\
  _internal_value (snd (__init__ text D d ty)) = d /\
  display_text (snd (__init__ text D d ty)) = text.
Proof.
  unfold __init__.
  set (w := mkWidget _ _ _ _ _ _ _ _ _).
  destruct (_setup_ui_run w) as (w0 & Hrun0 & H0 & Hv0 & Hi0 & Ht0 & Hd0 & _).
  unfold bind. rewrite Hrun0. subst w. cbn in Hv0, Hi0, Ht0, Hd0.
  unfold _reset_value. run. rewrite Hd0.
  destruct d as [d|]; [|cbn; auto].
  destruct (py_index (values w0) d) as [i|] eqn:Hi; [|cbn; auto].
  destruct (slider_setValue_internal w0 (Z.of_nat i)) as [Hi1 Hv1].
  pose proof (slider_setValue_text w0 (Z.of_nat i)) as Ht1.
  pose proof (user_moves_slider_in_sync w0 (Z.of_nat i) H0) as Hs1.
  unfold user_moves_slider in Hs1.
  split; [exact Hs1|]. split; [congruence|]. split; congruence.
Qed.

Lemma getClosestValue_values (w w' : LabeledVerticalSlider) (v : Z) :
  values w' = values w -> getClosestValue w' v = getClosestValue w v.
Proof. intros Hv. unfold getClosestValue. now rewrite Hv. Qed.

Lemma setValue_in_sync (w : LabeledVerticalSlider) (v : Z) :
  in_sync w -> Forall converts (values w) -> in_sync (snd (setValue v w)).
Proof.
  intros Hsync Hconv.
  destruct (setValue_run w v (in_sync_zero_based w Hsync) Hconv)
    as (w' & Hrun & Hv' & _ & _ & _ & Hrest).
  rewrite Hrun. cbn [snd]. destruct Hsync as (Hmin & Hmax & Hval).
  unfold in_sync. rewrite Hv'.
  destruct (getClosestValue w v) as [c|].
  - destruct Hrest as (k & _ & _ & -> & _).
    destruct (QSlider_setValue_range (Z.of_nat k) (slider w)) as [-> ->].
    rewrite QSlider_setValue_value. unfold QSlider.bound. lia.
  - destruct Hrest as [-> _]. auto.
Qed.

(** A list of integers below 2^53 in magnitude is one the signal carries. *)
Ltac converts_by_computation :=
  repeat (constructor; [unfold converts; vm_compute; discriminate|]);
  constructor.

(** ** Ties *)

(** A value whose difference equals the tracked one is returned at once. *)
Lemma closest_loop_tie (v x c d : Z) (rest : list Z) :
  Z.abs (v - x) = d -> closest_loop v (x :: rest) (Some c) (Fin d) = Some x.
Proof.
  intros Hd. cbn [closest_loop ext_eqb]. now rewrite Hd, Z.eqb_refl.
Qed.

(** C1, as the code decides it: on the domain [10, 20, 30] the request 15 is
    resolved to 20. The scan tracks 10 with difference 5, meets 20 with the
    same difference and returns the value it is visiting; [setValue 15] then
    puts the slider on position 1 and shows 20. *)
Theorem C1_tie_resolves_to_visited_value (w : LabeledVerticalSlider) :
  values w = [10; 20; 30] ->
  in_sync w ->
  getClosestValue w 15 = Some 20 /\
  exists w', setValue 15 w = (Ok tt, w') /\
             QSlider.value (slider w') = 1 /\
             lbl_value w' = "20".
Proof.
  intros Hv Hsync.
  assert (Hc : getClosestValue w 15 = Some 20).
  { rewrite (getClosestValue_cons w 15 10 [20; 30] Hv).
    now apply closest_loop_tie. }
  split; [exact Hc|].
  assert (Hconv : Forall converts (values w))
    by (rewrite Hv; converts_by_computation).
  destruct (setValue_run w 15 (in_sync_zero_based w Hsync) Hconv)
    as (w' & Hrun & _ & _ & _ & Hlbl & Hrest).
  rewrite Hc in Hlbl, Hrest. destruct Hrest as (i & Hi & _ & Hs & _).
  rewrite Hv in Hi. cbn in Hi. inversion Hi; subst i.
  exists w'. repeat split; [exact Hrun| |exact Hlbl].
  rewrite Hs, QSlider_setValue_value. destruct Hsync as (Hmin & Hmax & _).
  unfold QSlider.bound. rewrite Hmin, Hmax, Hv. cbn. reflexivity.
Qed.

Lemma C1_tie_resolves_to_visited_value_witness :
  let w := snd (__init__ "ExposureTime" [10; 20; 30] None PyInt) in
  getClosestValue w 15 = Some 20 /\
  exists w', setValue 15 w = (Ok tt, w') /\
             QSlider.value (slider w') = 1 /\
             lbl_value w' = "20".
Proof.
  intro w. apply (C1_tie_resolves_to_visited_value w).
  - reflexivity.
  - unfold in_sync. cbn. lia.
Defined.

(** C1 as stated fails: the result for [10, 20, 30] and 15 is not 10. *)
Lemma C1_tie_is_not_first_value :
  getClosestValue (snd (__init__ "ExposureTime" [10; 20; 30] None PyInt)) 15
  <> Some 10.
Proof. vm_compute. discriminate. Qed.

(** The early return can pass over a value that lies closer: on
    [10, 0, 20, 5] the request 5 is resolved to 0, which ties with the
    tracked 10, although 5 itself comes later in the values. *)
Example early_return_before_closer_value :
  getClosestValue (snd (__init__ "ExposureTime" [10; 0; 20; 5] None PyInt)) 5
  = Some 0.
Proof. reflexivity. Qed.

(** ** The scan is the specified algorithm *)


(** ** Requests outside a strictly ascending domain *)

Lemma closest_loop_keep (v c d : Z) (rest : list Z) :
  (forall x, In x rest -> d < Z.abs (v - x)) ->
  closest_loop v rest (Some c) (Fin d) = Some c.
Proof.
  induction rest as [|x r IH]; intros Hfar; [reflexivity|].
  cbn [closest_loop ext_eqb ext_ltb].
  pose proof (Hfar x (or_introl eq_refl)) as Hx.
  destruct (Z.eqb_spec (Z.abs (v - x)) d) as [He|_]; [lia|].
  destruct (Z.ltb_spec (Z.abs (v - x)) d) as [Hl|_]; [lia|].
  apply IH. intros y Hy. apply Hfar. now right.
Qed.

Lemma closest_loop_descend (v c : Z) (rest : list Z) :
  StronglySorted Z.lt (c :: rest) ->
  (forall y, In y (c :: rest) -> y < v) ->
  closest_loop v rest (Some c) (Fin (Z.abs (v - c))) = Some (last (c :: rest) 0).
Proof.
  revert c. induction rest as [|x r IH]; intros c Hsorted Hbelow; [reflexivity|].
  cbn [closest_loop ext_eqb ext_ltb].
  inversion Hsorted as [|? ? Htail Hall]; subst.
  assert (Hcx : c < x) by (inversion Hall; assumption).
  assert (Hxv : x < v) by (apply Hbelow; cbn; auto).
  assert (Hcv : c < v) by (apply Hbelow; cbn; auto).
  destruct (Z.eqb_spec (Z.abs (v - x)) (Z.abs (v - c))) as [He|_]; [lia|].
  destruct (Z.ltb_spec (Z.abs (v - x)) (Z.abs (v - c))) as [_|Hl]; [|lia].
  rewrite (IH x Htail).
  - reflexivity.
  - intros y Hy. apply Hbelow. now right.
Qed.

Lemma StronglySorted_le_last (l : list Z) (y : Z) :
  StronglySorted Z.lt l -> In y l -> y <= last l 0.
Proof.
  revert y. induction l as [|x r IH]; intros y Hsorted Hin; [contradiction|].
  inversion Hsorted as [|? ? Htail Hall]; subst.
  destruct r as [|x' r'].
  - destruct Hin as [<-|[]]. cbn. lia.
  - change (last (x :: x' :: r') 0) with (last (x' :: r') 0).
    destruct Hin as [<-|Hin].
    + assert (x < x') by (inversion Hall; assumption).
      specialize (IH x' Htail (or_introl eq_refl)). lia.
    + apply IH; assumption.
Qed.

Lemma py_index_last (l : list Z) :
  StronglySorted Z.lt l -> l <> [] ->
  py_index l (last l 0) = Some (List.length l - 1)%nat.
Proof.
  induction l as [|x r IH]; intros Hsorted Hne; [congruence|].
  inversion Hsorted as [|? ? Htail Hall]; subst.
  destruct r as [|x' r'].
  - cbn. now rewrite Z.eqb_refl.
  - change (last (x :: x' :: r') 0) with (last (x' :: r') 0).
    assert (Hstep : forall z, py_index (x :: x' :: r') z =
                      if x =? z then Some 0%nat
                      else option_map S (py_index (x' :: r') z)) by reflexivity.
    rewrite Hstep.
    assert (Hx : x < last (x' :: r') 0).
    { assert (x < x') by (inversion Hall; assumption).
      pose proof (StronglySorted_le_last (x' :: r') x' Htail (or_introl eq_refl)).
      lia. }
    destruct (Z.eqb_spec x (last (x' :: r') 0)) as [He|_]; [lia|].
    rewrite IH by (auto; congruence). cbn. f_equal. lia.
Qed.

(** C8, as the code decides it, for integers: on a non-empty, strictly
    ascending domain of integers that the signal can carry, an integer
    request below the first element is resolved to the first element and one
    above the last element to the last one; [setValue] returns without
    raising, puts the slider on position 0, respectively on the last
    position, and shows the endpoint. *)
Theorem C8_request_outside_range_snaps_to_endpoint
        (w : LabeledVerticalSlider) (v : Z) :
  values w <> [] ->
  Sorted Z.lt (values w) ->
  Forall converts (values w) ->
  in_sync w ->
  (v < hd 0 (values w) ->
   getClosestValue w v = Some (hd 0 (values w)) /\
   exists w', setValue v w = (Ok tt, w') /\
              QSlider.value (slider w') = 0 /\
              lbl_value w' = py_str (hd 0 (values w))) /\
  (last (values w) 0 < v ->
   getClosestValue w v = Some (last (values w) 0) /\
   exists w', setValue v w = (Ok tt, w') /\
              QSlider.value (slider w') = Z.of_nat (List.length (values w)) - 1 /\
              lbl_value w' = py_str (last (values w) 0)).
Proof.
  intros Hne Hsorted Hconv Hsync.
  apply Sorted_StronglySorted in Hsorted; [|intros a b c; apply Z.lt_trans].
  destruct (setValue_run w v (in_sync_zero_based w Hsync) Hconv)
    as (w' & Hrun & _ & _ & _ & Hlbl & Hrest).
  destruct Hsync as (Hmin & Hmax & _).
  destruct (values w) as [|x rest] eqn:Hv; [congruence|].
  split; intros Hout.
  - assert (Hc : getClosestValue w v = Some x).
    { rewrite (getClosestValue_cons w v x rest Hv).
      apply closest_loop_keep. intros y Hy.
      inversion Hsorted as [|? ? _ Hall]; subst.
      rewrite Forall_forall in Hall. specialize (Hall y Hy). cbn in Hout. lia. }
    split; [exact Hc|]. rewrite Hc in Hlbl, Hrest.
    destruct Hrest as (i & Hi & _ & Hs & _).
    cbn in Hi. rewrite Z.eqb_refl in Hi. inversion Hi; subst i.
    exists w'. repeat split; [exact Hrun| |exact Hlbl].
    rewrite Hs, QSlider_setValue_value. unfold QSlider.bound. lia.
  - assert (Hc : getClosestValue w v = Some (last (x :: rest) 0)).
    { rewrite (getClosestValue_cons w v x rest Hv).
      apply closest_loop_descend; [exact Hsorted|].
      intros y Hy. pose proof (StronglySorted_le_last _ y Hsorted Hy). lia. }
    split; [exact Hc|]. rewrite Hc in Hlbl, Hrest.
    destruct Hrest as (i & Hi & _ & Hs & _).
    rewrite py_index_last in Hi by (auto; congruence). inversion Hi; subst i.
    exists w'. repeat split; [exact Hrun| |exact Hlbl].
    rewrite Hs, QSlider_setValue_value. unfold QSlider.bound.
    cbn [List.length] in *. lia.
Qed.

Lemma C8_request_outside_range_snaps_to_endpoint_witness :
  let w := snd (__init__ "ExposureTime" [0; 5; 10; 15; 20] None PyInt) in
  (getClosestValue w (-100) = Some 0 /\
   exists w', setValue (-100) w = (Ok tt, w') /\
              QSlider.value (slider w') = 0 /\ lbl_value w' = "0") /\
  (getClosestValue w 1000 = Some 20 /\
   exists w', setValue 1000 w = (Ok tt, w') /\
              QSlider.value (slider w') = 4 /\ lbl_value w' = "20").
Proof.
  intro w.
  assert (Hne : values w <> []) by (cbn; discriminate).
  assert (Hsorted : Sorted Z.lt (values w)).
  { cbn. repeat constructor. }
  assert (Hconv : Forall converts (values w)) by (cbn; converts_by_computation).
  assert (Hsync : in_sync w) by (unfold in_sync; cbn; lia).
  split.
  - apply (C8_request_outside_range_snaps_to_endpoint w (-100)
             Hne Hsorted Hconv Hsync).
    cbn. lia.
  - apply (C8_request_outside_range_snaps_to_endpoint w 1000
             Hne Hsorted Hconv Hsync).
    cbn. lia.
Defined.

(** C8 as stated fails at [_T = float]. The values of the brightness
    control, -1.0, -0.9, ..., 1.0, are strictly ascending, the request -1e17
    lies below the first and 1e17 above the last, and both are resolved to
    the second value, -0.9: every difference rounds to 1e17, so the second
    value ties with the first and the scan returns it. It fails for integers
    too where the signal cannot carry the endpoint: on [0, 2^1030] the
    request 2^1031 is resolved to 2^1030 and [setValue] raises
    [TypeError]. *)
Lemma C8_request_outside_range_misses_endpoint :
  let D := PiCam.brightness_values in
  let first := hd PrimFloat.zero D in
  let second := nth 1 D PrimFloat.zero in
  let final := last D PrimFloat.zero in
  let low := FloatInstance.minus_1e17 in
  let high := FloatInstance.plus_1e17 in
  (FloatInstance.ascending D = true /\
   PrimFloat.ltb low first = true /\
   PrimFloat.ltb final high = true /\
   FloatInstance.resolves_to D low first = false /\
   FloatInstance.resolves_to D low second = true /\
   FloatInstance.resolves_to D high final = false /\
   FloatInstance.resolves_to D high second = true) /\
  (let w := snd (__init__ "ExposureTime" [0; 2 ^ 1030] None PyInt) in
   getClosestValue w (2 ^ 1031) = Some (2 ^ 1030) /\
   fst (setValue (2 ^ 1031) w) = Raise TypeError).
Proof.
  vm_compute. repeat split.
Qed.

(** Two more places where the scan over doubles parts from the scan over
    integers: a request that is not a number is resolved to nothing on
    non-empty values, both comparisons being false, and an infinite request
    is resolved to the first value, its difference being equal to the
    infinity [closest_diff] starts at. *)
Example float_requests_nan_and_infinity :
  let D := map FloatInstance.float_of_Z [1; 2; 3] in
  FloatInstance.getClosestValue D PrimFloat.nan = None /\
  FloatInstance.resolves_to D PrimFloat.infinity (FloatInstance.float_of_Z 1)
  = true.
Proof. vm_compute. split; reflexivity. Qed.

(** ** Where the selection lives after [setValue] and after a slider change *)

Lemma value_run (w : LabeledVerticalSlider) :
  value w =
    (match _internal_value w with
     | Some x => Ok x
     | None =>
         match py_getitem (values w) (QSlider.value (slider w)) with
         | Some x => Ok x
         | None => Raise IndexError
         end
     end, w).
Proof.
  unfold value. run. destruct (_internal_value w); [reflexivity|].
  now destruct (py_getitem _ _).
Qed.

(** C3, as the code decides it, for integers: on a widget with a non-empty
    domain of integers that the signal can carry, whose slider is in step
    with it, [setValue v] of an integer [v] returns, leaves the slider
    position inside the positions of the domain, on the closest-match element,
    which is an element of the domain and the text shown; [value()] then
    returns [v] itself. A slider-driven change returns too, leaves the
    position inside the positions of the domain, on an element [x] of it,
    and [value()] returns the value last given to the widget (the default
    or a [setValue] argument) when there is one, and [x] only when there is
    none. *)
Theorem C3_setValue_keeps_index_in_domain
        (w : LabeledVerticalSlider) (v i : Z) :
  values w <> [] ->
  Forall converts (values w) ->
  in_sync w ->
  (exists w' c,
      setValue v w = (Ok tt, w') /\
      values w' = values w /\
      0 <= QSlider.value (slider w') <= Z.of_nat (List.length (values w)) - 1 /\
      getClosestValue w v = Some c /\
      In c (values w) /\
      py_getitem (values w') (QSlider.value (slider w')) = Some c /\
      lbl_value w' = py_str c /\
      value w' = (Ok v, w')) /\
  (exists w',
      user_moves_slider i w = (Ok tt, w') /\
      values w' = values w /\
      0 <= QSlider.value (slider w') <= Z.of_nat (List.length (values w)) - 1 /\
      exists x,
        py_getitem (values w') (QSlider.value (slider w')) = Some x /\
        In x (values w) /\
        value w' = (Ok (match _internal_value w with
                        | Some given => given
                        | None => x
                        end), w')).
Proof.
  intros Hne Hconv Hsync. pose proof (in_sync_zero_based w Hsync) as Hzb.
  destruct Hsync as (Hmin & Hmax & Hval).
  assert (Hlen : 0 < Z.of_nat (List.length (values w))).
  { destruct (values w); [congruence|]. cbn [List.length]. lia. }
  split.
  - destruct (setValue_run w v Hzb Hconv)
      as (w' & Hrun & Hv' & _ & Hint & Hlbl & Hrest).
    destruct (getClosestValue_In w v Hne) as (c & Hc & Hin).
    rewrite Hc in Hlbl, Hrest. destruct Hrest as (k & Hk & Hnth & Hs & _).
    pose proof (py_index_lt _ _ _ Hk) as Hlt.
    assert (Hpos : QSlider.value (slider w') = Z.of_nat k).
    { rewrite Hs, QSlider_setValue_value. unfold QSlider.bound. lia. }
    exists w', c. repeat split; auto; try lia.
    + rewrite Hpos, Hv', py_getitem_nonneg by exact Hlt. exact Hnth.
    + rewrite value_run, Hint. reflexivity.
  - unfold user_moves_slider.
    destruct (slider_setValue_run w i) as (w' & Hrun & Hv' & Hint & _ & Hs & _).
    { unfold QSlider.bound. lia. }
    { exact Hconv. }
    exists w'. split; [exact Hrun|]. split; [exact Hv'|].
    assert (Hpos : 0 <= QSlider.value (slider w')
                   <= Z.of_nat (List.length (values w)) - 1).
    { rewrite Hs, QSlider_setValue_value. unfold QSlider.bound. lia. }
    split; [exact Hpos|].
    destruct (py_getitem (values w') (QSlider.value (slider w'))) as [x|] eqn:Hx.
    + exists x. split; [reflexivity|]. split.
      * rewrite <- Hv'. exact (py_getitem_Some_In _ _ _ Hx).
      * rewrite value_run, Hint, Hx. now destruct (_internal_value w).
    + exfalso.
      rewrite <- (Z2Nat.id (QSlider.value (slider w'))) in Hx by lia.
      rewrite py_getitem_nonneg in Hx by (rewrite Hv'; lia).
      apply nth_error_None in Hx. rewrite Hv' in Hx. lia.
Qed.

Lemma C3_setValue_keeps_index_in_domain_witness :
  let w := snd (__init__ "ExposureTime" [10; 20; 30] None PyInt) in
  (exists w' c,
      setValue 15 w = (Ok tt, w') /\
      values w' = values w /\
      0 <= QSlider.value (slider w') <= Z.of_nat (List.length (values w)) - 1 /\
      getClosestValue w 15 = Some c /\
      In c (values w) /\
      py_getitem (values w') (QSlider.value (slider w')) = Some c /\
      lbl_value w' = py_str c /\
      value w' = (Ok 15, w')) /\
  (exists w',
      user_moves_slider 7 w = (Ok tt, w') /\
      values w' = values w /\
      0 <= QSlider.value (slider w') <= Z.of_nat (List.length (values w)) - 1 /\
      exists x,
        py_getitem (values w') (QSlider.value (slider w')) = Some x /\
        In x (values w) /\
        value w' = (Ok (match _internal_value w with
                        | Some given => given
                        | None => x
                        end), w')).
Proof.
  intro w. apply (C3_setValue_keeps_index_in_domain w 15 7).
  - cbn. discriminate.
  - cbn. converts_by_computation.
  - unfold in_sync. cbn. lia.
Defined.

(** C3 as stated fails: after [setValue 15] on the domain [10, 20, 30] the
    method [value()] returns 15, which is not an element of the domain. *)
Lemma C3_value_outside_domain :
  let w := snd (__init__ "ExposureTime" [10; 20; 30] None PyInt) in
  exists w', setValue 15 w = (Ok tt, w') /\
             fst (value w') = Ok 15 /\
             ~ In 15 (values w').
Proof.
  intro w. eexists. split; [vm_compute; reflexivity|].
  split; [reflexivity|].
  cbn. intros [H|[H|[H|[]]]]; discriminate.
Qed.

(** ** Construction on an empty domain *)

(** C4, as the code decides it: the constructor has no check of the domain.
    With no default it returns on the empty sequence, leaving no values, the
    slider on the range 0..0 at 0, an empty text and no notification; with a
    default it raises [ValueError], from looking the default up in the
    values. *)
Theorem C4_empty_domain_is_not_rejected (text : string) (ty : PyType) :
  (exists w,
      __init__ text [] None ty = (Ok tt, w) /\
      values w = [] /\
      slider w = QSlider.mk 0 0 0 /\
      lbl_value w = "" /\
      value_changed w = []) /\
  (forall d, fst (__init__ text [] (Some d) ty) = Raise ValueError).
Proof.
  split.
  - eexists. split; [reflexivity|]. cbn. auto.
  - intros d. reflexivity.
Qed.

(** C4 as stated fails: constructing the widget on the empty sequence with no
    default raises nothing. *)
Lemma C4_empty_domain_constructs :
  fst (__init__ "ExposureTime" [] None PyInt) = Ok tt /\
  forall e, fst (__init__ "ExposureTime" [] None PyInt) <> Raise e.
Proof.
  split; [reflexivity|]. intros e. cbn. discriminate.
Qed.

(** ** The slot on an index outside the values *)

(** C5, on the values [10, 20, 30] and the index 3: the slot prints its
    diagnostic, emits nothing and leaves the text alone, and then raises
    [AttributeError] while it evaluates [self.field] for the second line of the
    diagnostic. *)
Theorem C5_index_beyond_values_raises :
  let w := snd (__init__ "ExposureTime" [10; 20; 30] None PyInt) in
  exists w',
    _value_changed 3 w = (Raise (AttributeError "field"), w') /\
    value_changed w' = value_changed w /\
    lbl_value w' = lbl_value w /\
    stdout w' = (stdout w ++ ["_value_changed ExposureTime 3";
                              "new_value not found 3"])%list.
Proof.
  intro w. eexists. split; [vm_compute; reflexivity|]. cbn. auto.
Qed.

(** The same on every widget and every index outside its values. *)
Lemma _value_changed_beyond_values (w : LabeledVerticalSlider) (i : Z) :
  Z.of_nat (List.length (values w)) <= i ->
  exists w',
    _value_changed i w = (Raise (AttributeError "field"), w') /\
    value_changed w' = value_changed w /\
    lbl_value w' = lbl_value w.
Proof.
  intros Hi. rewrite _value_changed_missing by (apply py_getitem_out; auto).
  eexists. split; [reflexivity|]. cbn. auto.
Qed.

(** ** What [value()] returns *)

Lemma setValue_internal (w : LabeledVerticalSlider) (v : Z) :
  _internal_value (snd (setValue v w)) = Some v.
Proof.
  rewrite setValue_unfold. set (w2 := set_internal_value _ _).
  assert (H2 : _internal_value w2 = Some v) by reflexivity. clearbody w2.
  destruct (getClosestValue w v) as [c|]; [|exact H2].
  destruct (py_index (values w) c) as [k|]; [|exact H2].
  unfold bind at 1.
  destruct (slider_setValue_internal w2 (Z.of_nat k)) as [Hint _].
  destruct (slider_setValue (Z.of_nat k) w2) as [[[]|e] w3]; cbn in *; congruence.
Qed.

(** C6, as the code decides it: [value()] returns the value last given to the
    widget, the constructor's default or the argument of the latest
    [setValue], whenever there is one, and [values[index]] only when there is
    none; a slider-driven change keeps the given value, so after
    [setValue v] and any slider-driven change [value()] still returns [v]. *)
Theorem C6_value_returns_given_value (w : LabeledVerticalSlider) (v i : Z) :
  value w =
    (match _internal_value w with
     | Some given => Ok given
     | None =>
         match py_getitem (values w) (QSlider.value (slider w)) with
         | Some x => Ok x
         | None => Raise IndexError
         end
     end, w) /\
  _internal_value (snd (setValue v w)) = Some v /\
  _internal_value (snd (user_moves_slider i w)) = _internal_value w /\
  fst (value (snd (user_moves_slider i (snd (setValue v w))))) = Ok v /\
  (forall text D d ty, _internal_value (snd (__init__ text D d ty)) = d).
Proof.
  split; [apply value_run|].
  split; [apply setValue_internal|].
  split; [apply slider_setValue_internal|].
  split.
  - rewrite value_run. unfold user_moves_slider.
    destruct (slider_setValue_internal (snd (setValue v w)) i) as [-> _].
    now rewrite setValue_internal.
  - intros text D d ty. apply __init___in_sync.
Qed.

(** C6 as stated fails: after [setValue 10] on [0, 10, 20] and a user-driven
    change to position 2, [value()] returns 10 while [values[index]] is 20. *)
Lemma C6_value_ignores_user_change :
  let w := snd (__init__ "ExposureTime" [0; 10; 20] None PyInt) in
  exists w1 w2,
    setValue 10 w = (Ok tt, w1) /\
    user_moves_slider 2 w1 = (Ok tt, w2) /\
    QSlider.value (slider w2) = 2 /\
    py_getitem (values w2) (QSlider.value (slider w2)) = Some 20 /\
    fst (value w2) = Ok 10 /\
    fst (value w2) <> Ok 20.
Proof.
  intro w. do 2 eexists.
  split; [vm_compute; reflexivity|].
  split; [vm_compute; reflexivity|].
  cbn. repeat split; auto. discriminate.
Qed.

(** ** Replacing the values *)

(** C7, on the values [0, 10, 20] with 10 selected and the new values
    [0, 7, 14, 21]: [setNewValues] stores the new values and then raises
    [AttributeError] on [self.slider.getValue]; no closest-match resolution
    runs, the slider stays on position 1, the text stays 10 and [value()]
    returns 10. *)
Theorem C7_setNewValues_raises :
  let w := snd (__init__ "ExposureTime" [0; 10; 20] (Some 10) PyInt) in
  exists w',
    setNewValues [0; 7; 14; 21] w = (Raise (AttributeError "getValue"), w') /\
    values w' = [0; 7; 14; 21] /\
    slider w' = slider w /\
    QSlider.value (slider w) = 1 /\
    lbl_value w' = "10" /\
    fst (value w') = Ok 10.
Proof.
  intro w. eexists. split; [vm_compute; reflexivity|]. cbn. auto 10.
Qed.

(** The same on every widget and every new sequence: the call never returns. *)
Lemma setNewValues_always_raises (w : LabeledVerticalSlider) (D : list Z) :
  fst (setNewValues D w) = Raise (AttributeError "getValue") /\
  values (snd (setNewValues D w)) = D /\
  slider (snd (setNewValues D w)) = slider w /\
  lbl_value (snd (setNewValues D w)) = lbl_value w.
Proof. repeat split. Qed.

(** With 20 selected the slider stays on position 2, now the place of 14,
    where the closest match of 20 in the new values is 21. *)
Example setNewValues_leaves_stale_index :
  let w := snd (__init__ "ExposureTime" [0; 10; 20] (Some 20) PyInt) in
  fst (setNewValues [0; 7; 14; 21] w) = Raise (AttributeError "getValue") /\
  QSlider.value (slider (snd (setNewValues [0; 7; 14; 21] w))) = 2 /\
  lbl_value (snd (setNewValues [0; 7; 14; 21] w)) = "20" /\
  getClosestValue (snd (setNewValues [0; 7; 14; 21] w)) 20 = Some 21.
Proof. repeat split. Qed.

(** ** Repeating [setValue] *)




(** ** Negative indices *)

(** C10, as the code decides it: on a widget with [n > 0] values, integers
    that the signal can carry, and an index [i] with [-n <= i <= -1], the
    slot does not take its diagnostic path: it returns, emits a notification
    carrying the double of [values[n + i]], which is [values[n + i]] itself
    below 2^53 in magnitude, and shows [values[n + i]]. *)
Theorem C10_negative_index_counts_from_end (w : LabeledVerticalSlider) (i : Z) :
  values w <> [] ->
  Forall converts (values w) ->
  - Z.of_nat (List.length (values w)) <= i <= -1 ->
  exists x d w',
    nth_error (values w) (Z.to_nat (Z.of_nat (List.length (values w)) + i)) = Some x /\
    py_float x = Some d /\
    (Z.abs x < 2 ^ 53 -> d = x) /\
    _value_changed i w = (Ok tt, w') /\
    value_changed w' = (value_changed w ++ [d])%list /\
    lbl_value w' = py_str x /\
    values w' = values w /\
    slider w' = slider w.
Proof.
  intros Hne Hconv Hi.
  destruct (nth_error (values w) (Z.to_nat (Z.of_nat (List.length (values w)) + i)))
    as [x|] eqn:Hx.
  - destruct (converts_In _ x Hconv (nth_error_In _ _ Hx)) as (d & Hd).
    exists x, d. eexists. split; [reflexivity|]. split; [exact Hd|].
    split.
    { intros Hsmall. rewrite (py_float_exact x Hsmall) in Hd. congruence. }
    rewrite (_value_changed_found w i x d).
    + split; [reflexivity|]. cbn. auto.
    + rewrite py_getitem_negative by exact Hi. exact Hx.
    + exact Hd.
  - apply nth_error_None in Hx. lia.
Qed.

Lemma C10_negative_index_counts_from_end_witness :
  let w := snd (__init__ "ExposureTime" [10; 20; 30] None PyInt) in
  exists x d w',
    nth_error (values w) (Z.to_nat (Z.of_nat (List.length (values w)) + (-1))) = Some x /\
    py_float x = Some d /\
    (Z.abs x < 2 ^ 53 -> d = x) /\
    _value_changed (-1) w = (Ok tt, w') /\
    value_changed w' = (value_changed w ++ [d])%list /\
    lbl_value w' = py_str x /\
    values w' = values w /\
    slider w' = slider w.
Proof.
  intro w. apply (C10_negative_index_counts_from_end w (-1)).
  - cbn. discriminate.
  - cbn. converts_by_computation.
  - cbn. lia.
Defined.

(** C10 as stated fails where the signal cannot carry the value: on
    [0, 2^1030] the index -1 reads 2^1030 and the slot raises [TypeError] in
    [emit], with nothing emitted and the text left alone. *)
Lemma C10_negative_index_beyond_doubles_raises :
  let w := snd (__init__ "ExposureTime" [0; 2 ^ 1030] None PyInt) in
  exists w',
    _value_changed (-1) w = (Raise TypeError, w') /\
    py_getitem (values w) (-1) = Some (2 ^ 1030) /\
    value_changed w' = value_changed w /\
    lbl_value w' = lbl_value w.
Proof.
  intro w. eexists. split; [vm_compute; reflexivity|].
  repeat split.
Qed.

(** * Further properties of the widget *)

(** ** Closest match on a strictly ascending domain *)

Lemma closest_loop_ascending (v : Z) (rest : list Z) :
  forall c,
    StronglySorted Z.lt rest ->
    Forall (Z.lt c) rest ->
    exists r,
      closest_loop v rest (Some c) (Fin (Z.abs (v - c))) = Some r /\
      In r (c :: rest) /\
      (forall x, In x (c :: rest) -> Z.abs (v - r) <= Z.abs (v - x)) /\
      (forall x, In x (c :: rest) -> Z.abs (v - x) = Z.abs (v - r) -> x <= r).
Proof.
  induction rest as [|x r' IH]; intros c Hsorted Habove.
  - exists c. cbn. repeat split; auto.
    + intros x [<-|[]]. lia.
    + intros x [<-|[]] _. lia.
  - inversion Hsorted as [|? ? Htail Hall]; subst.
    inversion Habove as [|? ? Hcx Habove']; subst.
    rewrite Forall_forall in Hall, Habove'.
    cbn [closest_loop ext_eqb ext_ltb].
    destruct (Z.eqb_spec (Z.abs (v - x)) (Z.abs (v - c))) as [Heq|Hne].
    + exists x. split; [reflexivity|]. split; [cbn; auto|]. split.
      * intros y [<-|[<-|Hy]]; [lia|lia|]. specialize (Hall y Hy). lia.
      * intros y [<-|[<-|Hy]] Hy'; [lia|lia|]. specialize (Hall y Hy). lia.
    + destruct (Z.ltb_spec (Z.abs (v - x)) (Z.abs (v - c))) as [Hlt|Hge].
      * destruct (IH x Htail) as (r & Hr & Hin & Hmin & Htie).
        { rewrite Forall_forall. exact Hall. }
        exists r. split; [exact Hr|]. split; [cbn in *; tauto|].
        pose proof (Hmin x (or_introl eq_refl)) as Hrx. split.
        -- intros y [<-|Hy]; [lia|]. apply Hmin. exact Hy.
        -- intros y [<-|Hy] Hy'; [lia|]. apply Htie; assumption.
      * destruct (IH c Htail) as (r & Hr & Hin & Hmin & Htie).
        { rewrite Forall_forall. exact Habove'. }
        exists r. split; [exact Hr|]. split; [cbn in *; tauto|].
        pose proof (Hmin c (or_introl eq_refl)) as Hrc. split.
        -- intros y [<-|[<-|Hy]]; [lia|lia|]. apply Hmin. now right.
        -- intros y [<-|[<-|Hy]] Hy'; [apply Htie; cbn; auto|lia|].
           apply Htie; [now right|exact Hy'].
Qed.

Lemma getClosestValue_ascending (w : LabeledVerticalSlider) (v c : Z) :
  Sorted Z.lt (values w) ->
  getClosestValue w v = Some c ->
  In c (values w) /\
  (forall x, In x (values w) -> Z.abs (v - c) <= Z.abs (v - x)) /\
  (forall x, In x (values w) -> Z.abs (v - x) = Z.abs (v - c) -> x <= c).
Proof.
  intros Hsorted Hc.
  apply Sorted_StronglySorted in Hsorted; [|intros a b d; apply Z.lt_trans].
  destruct (values w) as [|x rest] eqn:Hv.
  - rewrite (getClosestValue_nil w v Hv) in Hc. discriminate.
  - rewrite (getClosestValue_cons w v x rest Hv) in Hc.
    inversion Hsorted as [|? ? Htail Hall]; subst.
    destruct (closest_loop_ascending v rest x Htail Hall) as (r & Hr & H).
    rewrite Hr in Hc. inversion Hc; subst r. exact H.
Qed.

(** X1, for integers: on strictly ascending values the value
    [getClosestValue] returns is a nearest one: it belongs to the values and
    no value lies closer to the request. *)
Theorem getClosestValue_ascending_is_nearest
        (w : LabeledVerticalSlider) (v c : Z) :
  Sorted Z.lt (values w) ->
  getClosestValue w v = Some c ->
  In c (values w) /\
  forall x, In x (values w) -> Z.abs (v - c) <= Z.abs (v - x).
Proof.
  intros Hsorted Hc.
  destruct (getClosestValue_ascending w v c Hsorted Hc) as (Hin & Hmin & _).
  split; assumption.
Qed.

Lemma getClosestValue_ascending_is_nearest_witness :
  let w := snd (__init__ "FrameRate" [1; 2; 3; 15; 20] None PyInt) in
  In 15 (values w) /\
  forall x, In x (values w) -> Z.abs (11 - 15) <= Z.abs (11 - x).
Proof.
  intro w. apply (getClosestValue_ascending_is_nearest w 11 15).
  - cbn. repeat constructor.
  - reflexivity.
Defined.

(** X2, for integers: on strictly ascending integer values an integer
    request that lies exactly between two neighbours is resolved to the
    larger one: every value as close to the request as the result is at most
    the result. *)
Theorem getClosestValue_ascending_tie_takes_larger
        (w : LabeledVerticalSlider) (v c x : Z) :
  Sorted Z.lt (values w) ->
  getClosestValue w v = Some c ->
  In x (values w) ->
  Z.abs (v - x) = Z.abs (v - c) ->
  x <= c.
Proof.
  intros Hsorted Hc Hx Htie.
  destruct (getClosestValue_ascending w v c Hsorted Hc) as (_ & _ & H).
  apply H; assumption.
Qed.

Lemma getClosestValue_ascending_tie_takes_larger_witness :
  let w := snd (__init__ "ExposureTime" [0; 10000; 20000] None PyInt) in
  getClosestValue w 15000 = Some 20000 /\
  Z.abs (15000 - 10000) = Z.abs (15000 - 20000) /\
  10000 <= 20000.
Proof.
  intro w. split; [reflexivity|]. split; [reflexivity|].
  apply (getClosestValue_ascending_tie_takes_larger w 15000 20000 10000).
  - cbn. repeat constructor.
  - reflexivity.
  - cbn. auto.
  - reflexivity.
Defined.

(** ** Selecting a member of the domain *)

Lemma py_index_nth_ascending (l : list Z) :
  StronglySorted Z.lt l ->
  forall k x, nth_error l k = Some x -> py_index l x = Some k.
Proof.
  induction l as [|y r IH]; intros Hsorted k x Hnth.
  - destruct k; discriminate.
  - inversion Hsorted as [|? ? Htail Hall]; subst.
    cbn [py_index]. destruct k as [|k]; cbn in Hnth.
    + inversion Hnth; subst. now rewrite Z.eqb_refl.
    + rewrite Forall_forall in Hall.
      pose proof (Hall x (nth_error_In _ _ Hnth)) as Hlt.
      destruct (Z.eqb_spec y x) as [He|_]; [lia|].
      now rewrite (IH Htail k x Hnth).
Qed.

(** X3, for integers: on a widget in step with strictly ascending values
    that the signal can carry, [setValue] of the value at position [k]
    returns, resolves to that very value, puts the slider on position [k],
    shows the value, and [value()] returns it. *)
Theorem setValue_of_member_selects_it
        (w : LabeledVerticalSlider) (k : nat) (x : Z) :
  in_sync w ->
  Sorted Z.lt (values w) ->
  Forall converts (values w) ->
  nth_error (values w) k = Some x ->
  getClosestValue w x = Some x /\
  exists w',
    setValue x w = (Ok tt, w') /\
    QSlider.value (slider w') = Z.of_nat k /\
    py_getitem (values w') (QSlider.value (slider w')) = Some x /\
    lbl_value w' = py_str x /\
    value w' = (Ok x, w').
Proof.
  intros Hsync Hsorted Hconv Hnth.
  pose proof (nth_error_In _ _ Hnth) as Hin.
  assert (Hne : values w <> []) by (intros He; rewrite He in Hin; contradiction).
  destruct (getClosestValue_In w x Hne) as (c & Hc & _).
  destruct (getClosestValue_ascending w x c Hsorted Hc) as (_ & Hmin & _).
  assert (c = x) by (specialize (Hmin x Hin); lia). subst c.
  split; [exact Hc|].
  apply Sorted_StronglySorted in Hsorted; [|intros a b d; apply Z.lt_trans].
  destruct (setValue_run w x (in_sync_zero_based w Hsync) Hconv)
    as (w' & Hrun & Hv' & _ & Hint & Hlbl & Hrest).
  rewrite Hc in Hlbl, Hrest. destruct Hrest as (k' & Hk' & _ & Hs & _).
  rewrite (py_index_nth_ascending _ Hsorted k x Hnth) in Hk'.
  inversion Hk'; subst k'.
  assert (Hlt : (k < List.length (values w))%nat)
    by (apply nth_error_Some; congruence).
  destruct Hsync as (Hmin' & Hmax & _).
  assert (Hpos : QSlider.value (slider w') = Z.of_nat k).
  { rewrite Hs, QSlider_setValue_value. unfold QSlider.bound. lia. }
  exists w'. repeat split; auto.
  - rewrite Hpos, Hv', py_getitem_nonneg by exact Hlt. exact Hnth.
  - rewrite value_run, Hint. reflexivity.
Qed.

Lemma setValue_of_member_selects_it_witness :
  let w := snd (__init__ "FrameRate" [1; 2; 3; 15; 20] (Some 2) PyInt) in
  getClosestValue w 15 = Some 15 /\
  exists w',
    setValue 15 w = (Ok tt, w') /\
    QSlider.value (slider w') = 3 /\
    py_getitem (values w') (QSlider.value (slider w')) = Some 15 /\
    lbl_value w' = py_str 15 /\
    value w' = (Ok 15, w').
Proof.
  intro w. apply (setValue_of_member_selects_it w 3%nat 15).
  - unfold in_sync. vm_compute. repeat split; discriminate.
  - cbn. repeat constructor.
  - cbn. converts_by_computation.
  - reflexivity.
Defined.

(** X4, for integers: on integer values and an integer request
    [getClosestValue] returns nothing exactly on empty values; on values in
    any order what it returns is one of them. *)
Theorem getClosestValue_none_only_on_empty
        (w : LabeledVerticalSlider) (v : Z) :
  match getClosestValue w v with
  | None => values w = []
  | Some c => In c (values w) /\ values w <> []
  end.
Proof.
  destruct (values w) as [|x rest] eqn:Hv.
  - now rewrite (getClosestValue_nil w v Hv).
  - destruct (getClosestValue_In w v) as (c & Hc & Hin); [congruence|].
    rewrite Hc, <- Hv. split; [exact Hin|congruence].
Qed.

(** ** The slot over all indices *)

(** X5, for integer values: with [n] values the slot reads a value exactly
    on the indices [-n <= i < n]. There it returns when the signal can carry
    the value, emitting its double and showing the value, and raises
    [TypeError] when it cannot; on every other index it raises
    [AttributeError] for [field]. Whenever it raises it has emitted nothing
    and left the text alone. *)
Theorem _value_changed_outcome_by_index
        (w : LabeledVerticalSlider) (i : Z) :
  let n := Z.of_nat (List.length (values w)) in
  let w' := snd (_value_changed i w) in
  if (- n <=? i) && (i <? n)
  then exists x,
         py_getitem (values w) i = Some x /\
         match py_float x with
         | Some d =>
             fst (_value_changed i w) = Ok tt /\
             value_changed w' = (value_changed w ++ [d])%list /\
             lbl_value w' = py_str x
         | None =>
             fst (_value_changed i w) = Raise TypeError /\
             value_changed w' = value_changed w /\
             lbl_value w' = lbl_value w
         end
  else fst (_value_changed i w) = Raise (AttributeError "field") /\
       value_changed w' = value_changed w /\
       lbl_value w' = lbl_value w.
Proof.
  intros n w'. subst n w'.
  destruct (Z.leb_spec (- Z.of_nat (List.length (values w))) i) as [Hlo|Hlo];
    destruct (Z.ltb_spec i (Z.of_nat (List.length (values w)))) as [Hhi|Hhi];
    cbn [andb].
  - destruct (py_getitem (values w) i) as [x|] eqn:Hx.
    + exists x. split; [reflexivity|].
      destruct (py_float x) as [d|] eqn:Hd.
      * rewrite (_value_changed_found w i x d Hx Hd). cbn. auto.
      * rewrite (_value_changed_unconvertible w i x Hx Hd). cbn. auto.
    + exfalso. destruct (Z.ltb_spec i 0) as [Hneg|Hpos].
      * rewrite py_getitem_negative in Hx by lia.
        apply nth_error_None in Hx. lia.
      * rewrite <- (Z2Nat.id i) in Hx by lia.
        rewrite py_getitem_nonneg in Hx by lia.
        apply nth_error_None in Hx. lia.
  - rewrite _value_changed_missing by (apply py_getitem_out; lia). cbn. auto.
  - rewrite _value_changed_missing by (apply py_getitem_out; lia). cbn. auto.
  - rewrite _value_changed_missing by (apply py_getitem_out; lia). cbn. auto.
Qed.

(** ** What is emitted *)

Lemma slider_setValue_emits (w : LabeledVerticalSlider) (i : Z) :
  exists l,
    value_changed (snd (slider_setValue i w)) = (value_changed w ++ l)%list /\
    Forall (double_of_value (values w)) l /\
    (List.length l <= 1)%nat.
Proof.
  destruct (Z.eq_dec (QSlider.bound (slider w) i) (QSlider.value (slider w)))
    as [Hb|Hb].
  - rewrite (slider_setValue_same w i Hb). exists []. cbn.
    rewrite app_nil_r. auto.
  - rewrite (slider_setValue_changed w i Hb).
    set (w1 := set_slider _ w).
    destruct (_value_changed_cases w1 (QSlider.bound (slider w) i))
      as [(x & d & Hx & Hd & ->)|[(x & _ & _ & ->)|(_ & ->)]].
    + exists [d]. cbn. repeat split; auto. constructor; [|constructor].
      exists x. split; [exact (py_getitem_Some_In _ _ _ Hx)|exact Hd].
    + exists []. cbn. rewrite app_nil_r. auto.
    + exists []. cbn. rewrite app_nil_r. auto.
Qed.

Lemma setValue_emits (w : LabeledVerticalSlider) (v : Z) :
  exists l,
    value_changed (snd (setValue v w)) = (value_changed w ++ l)%list /\
    Forall (double_of_value (values w)) l /\
    (List.length l <= 1)%nat.
Proof.
  rewrite setValue_unfold. set (w2 := set_internal_value _ _).
  assert (He2 : value_changed w2 = value_changed w) by reflexivity.
  assert (Hv2 : values w2 = values w) by reflexivity.
  clearbody w2.
  destruct (getClosestValue w v) as [c|].
  2:{ exists []. cbn. rewrite app_nil_r, He2. auto. }
  destruct (py_index (values w) c) as [k|].
  2:{ exists []. cbn. rewrite app_nil_r, He2. auto. }
  destruct (slider_setValue_emits w2 (Z.of_nat k)) as (l & Hl & Hin & Hlen).
  exists l. rewrite <- He2, <- Hv2. split; [|split; assumption].
  rewrite <- Hl. unfold bind at 1.
  destruct (slider_setValue (Z.of_nat k) w2) as [[[]|e] w3]; reflexivity.
Qed.

(** X6, for integer values: whatever the state of the widget and whatever
    the outcome, [setValue] and a slider-driven change each deliver at most
    one notification, and what a notification delivers is the double of one
    of the values. *)
Theorem notifications_carry_doubles_of_values
        (w : LabeledVerticalSlider) (v i : Z) :
  (exists l,
      value_changed (snd (setValue v w)) = (value_changed w ++ l)%list /\
      Forall (fun d => exists x, In x (values w) /\ py_float x = Some d) l /\
      (List.length l <= 1)%nat) /\
  (exists l,
      value_changed (snd (user_moves_slider i w)) = (value_changed w ++ l)%list /\
      Forall (fun d => exists x, In x (values w) /\ py_float x = Some d) l /\
      (List.length l <= 1)%nat).
Proof.
  split; [apply setValue_emits|apply slider_setValue_emits].
Qed.

(** X7, for integers: on a widget in step with non-empty values that the
    signal can carry, [setValue v] delivers the double of the closest match
    once when the slider was not already on its position, and delivers
    nothing when it was. *)
Theorem setValue_notifies_when_position_changes
        (w : LabeledVerticalSlider) (v : Z) :
  in_sync w ->
  values w <> [] ->
  Forall converts (values w) ->
  exists w' c k d,
    setValue v w = (Ok tt, w') /\
    getClosestValue w v = Some c /\
    py_index (values w) c = Some k /\
    py_float c = Some d /\
    value_changed w' =
      (value_changed w ++
         if QSlider.value (slider w) =? Z.of_nat k then [] else [d])%list.
Proof.
  intros Hsync Hne Hconv.
  destruct (setValue_run w v (in_sync_zero_based w Hsync) Hconv)
    as (w' & Hrun & _ & _ & _ & _ & Hrest).
  destruct (getClosestValue_In w v Hne) as (c & Hc & Hin).
  rewrite Hc in Hrest. destruct Hrest as (k & Hk & Hnth & _ & Hsig).
  pose proof (py_index_lt _ _ _ Hk) as Hlt.
  destruct (converts_In _ c Hconv Hin) as (d & Hd).
  destruct Hsync as (Hmin & Hmax & _).
  exists w', c, k, d. repeat split; auto.
  unfold QSlider.setValue in Hsig.
  assert (Hb : QSlider.bound (slider w) (Z.of_nat k) = Z.of_nat k)
    by (unfold QSlider.bound; lia).
  rewrite Hb in Hsig.
  destruct (QSlider.value (slider w) =? Z.of_nat k); cbn in Hsig.
  - now rewrite app_nil_r.
  - destruct Hsig as (x & d' & Hx & Hd' & ->).
    rewrite py_getitem_nonneg in Hx by exact Hlt. congruence.
Qed.

Lemma setValue_notifies_when_position_changes_witness :
  let w := snd (__init__ "FrameRate" [1; 2; 3; 15; 20] None PyInt) in
  exists w' c k d,
    setValue 14 w = (Ok tt, w') /\
    getClosestValue w 14 = Some c /\
    py_index (values w) c = Some k /\
    py_float c = Some d /\
    value_changed w' =
      (value_changed w ++
         if QSlider.value (slider w) =? Z.of_nat k then [] else [d])%list.
Proof.
  intro w. apply (setValue_notifies_when_position_changes w 14).
  - unfold in_sync. vm_compute. repeat split; discriminate.
  - cbn. discriminate.
  - cbn. converts_by_computation.
Defined.

(** ** Construction with a default *)

Lemma py_index_None (l : list Z) (x : Z) :
  py_index l x = None -> ~ In x l.
Proof.
  induction l as [|y r IH]; intros Hi; [tauto|].
  cbn in Hi. destruct (Z.eqb_spec y x) as [He|Hne]; [discriminate|].
  destruct (py_index r x); [discriminate|].
  intros [H|H]; [congruence|]. now apply IH.
Qed.

Lemma py_index_nth (l : list Z) (x : Z) (k : nat) :
  py_index l x = Some k -> nth_error l k = Some x.
Proof.
  revert k. induction l as [|y r IH]; intros k Hk; [discriminate|].
  cbn in Hk. destruct (Z.eqb_spec y x) as [He|_].
  - inversion Hk; subst. reflexivity.
  - destruct (py_index r x) as [k'|]; [|discriminate].
    inversion Hk; subst. cbn. now apply IH.
Qed.


(** ** Invariants along any sequence of calls *)

Lemma user_moves_slider_returns (w : LabeledVerticalSlider) (i : Z) :
  in_sync w -> Forall converts (values w) -> fst (user_moves_slider i w) = Ok tt.
Proof.
  intros (Hmin & Hmax & Hval) Hconv. unfold user_moves_slider.
  destruct (values w) as [|x rest] eqn:Hv.
  - rewrite slider_setValue_same; [reflexivity|].
    cbn in Hmax. unfold QSlider.bound. lia.
  - destruct (slider_setValue_run w i) as (w' & -> & _); [| |reflexivity].
    + rewrite Hv. cbn [List.length] in *. unfold QSlider.bound. lia.
    + now rewrite Hv.
Qed.

Lemma run_call_in_sync (c : call) (w : LabeledVerticalSlider) :
  in_sync w ->
  Forall converts (values w) ->
  fst (run_call c w) = Ok tt /\
  in_sync (snd (run_call c w)) /\
  values (snd (run_call c w)) = values w /\
  exists l,
    value_changed (snd (run_call c w)) = (value_changed w ++ l)%list /\
    Forall (double_of_value (values w)) l.
Proof.
  intros Hsync Hconv. destruct c as [v|i]; cbn [run_call].
  - destruct (setValue_run w v (in_sync_zero_based w Hsync) Hconv)
      as (w' & Hrun & Hv' & _).
    split; [now rewrite Hrun|].
    split; [now apply setValue_in_sync|].
    split; [now rewrite Hrun|].
    destruct (setValue_emits w v) as (l & Hl & Hin & _). eauto.
  - split; [now apply user_moves_slider_returns|].
    split; [now apply user_moves_slider_in_sync|].
    split; [apply slider_setValue_internal|].
    destruct (slider_setValue_emits w i) as (l & Hl & Hin & _). eauto.
Qed.

Lemma run_calls_in_sync (cs : list call) :
  forall w,
    in_sync w ->
    Forall converts (values w) ->
    Forall (double_of_value (values w)) (value_changed w) ->
    exists w',
      run_calls cs w = (Ok tt, w') /\
      in_sync w' /\
      values w' = values w /\
      Forall (double_of_value (values w)) (value_changed w').
Proof.
  induction cs as [|c rest IH]; intros w Hsync Hconv Hem.
  - exists w. cbn. auto.
  - destruct (run_call_in_sync c w Hsync Hconv)
      as (Hok & Hsync1 & Hv1 & l & Hl & Hin).
    cbn [run_calls]. unfold bind.
    destruct (run_call c w) as [[[]|e] w1]; cbn in *; [|discriminate].
    destruct (IH w1 Hsync1) as (w' & Hrun & Hsync' & Hv' & Hem').
    { now rewrite Hv1. }
    { rewrite Hv1, Hl. apply Forall_app. auto. }
    exists w'. rewrite Hv1 in *. auto.
Qed.

(** X9, for integers: from a widget the constructor returned, over values
    that the signal can carry, every sequence of [setValue] calls and slider
    moves returns without an exception, keeps the values, keeps the slider
    range on the positions of the values with the position inside it, and
    every notification delivered since construction is the double of one of
    the values. *)
Theorem calls_after_construction_keep_invariants
        (text : string) (D : list Z) (d : option Z) (ty : PyType)
        (cs : list call) :
  fst (__init__ text D d ty) = Ok tt ->
  Forall converts D ->
  exists w,
    run_calls cs (snd (__init__ text D d ty)) = (Ok tt, w) /\
    values w = D /\
    QSlider.minimum (slider w) = 0 /\
    QSlider.maximum (slider w) = Z.max 0 (Z.of_nat (List.length D) - 1) /\
    0 <= QSlider.value (slider w) <= QSlider.maximum (slider w) /\
    Forall (fun f => exists x, In x D /\ py_float x = Some f) (value_changed w).
Proof.
  intros _ Hconv.
  destruct (__init___in_sync text D d ty) as (Hsync & Hv & _ & _).
  assert (Hem : Forall (double_of_value (values (snd (__init__ text D d ty))))
                       (value_changed (snd (__init__ text D d ty)))).
  { rewrite Hv. unfold __init__. set (w := mkWidget _ _ _ _ _ _ _ _ _).
    destruct (_setup_ui_run w) as (w0 & Hrun0 & _ & Hv0 & _ & _ & Hd0 & _ & He0 & _).
    unfold bind. rewrite Hrun0. subst w. cbn in Hv0, Hd0, He0.
    unfold _reset_value. run. rewrite Hd0.
    destruct d as [d|]; [|cbn; rewrite He0; constructor].
    destruct (py_index (values w0) d) as [k|]; [|cbn; rewrite He0; constructor].
    destruct (slider_setValue_emits w0 (Z.of_nat k)) as (l & Hl & Hin & _).
    rewrite Hl, He0, Hv0 in *. exact Hin. }
  destruct (run_calls_in_sync cs _ Hsync) as (w & Hrun & Hs & Hv' & Hem').
  { now rewrite Hv. }
  { exact Hem. }
  rewrite Hv in *. destruct Hs as (Hmin & Hmax & Hval). rewrite Hv' in Hmax.
  exists w. repeat split; auto; lia.
Qed.

Lemma calls_after_construction_keep_invariants_witness :
  let D := [1; 2; 3; 15; 20] in
  let cs := [CallSetValue 14; CallUserMove 9; CallSetValue (-3); CallUserMove (-1)] in
  exists w,
    run_calls cs (snd (__init__ "FrameRate" D (Some 3) PyInt)) = (Ok tt, w) /\
    values w = D /\
    QSlider.minimum (slider w) = 0 /\
    QSlider.maximum (slider w) = Z.max 0 (Z.of_nat (List.length D) - 1) /\
    0 <= QSlider.value (slider w) <= QSlider.maximum (slider w) /\
    Forall (fun f => exists x, In x D /\ py_float x = Some f) (value_changed w).
Proof.
  intros D cs.
  apply (calls_after_construction_keep_invariants "FrameRate" D (Some 3) PyInt cs).
  - reflexivity.
  - converts_by_computation.
Defined.

(** ** A widget without values *)

(** X10: on a widget without values [setValue v] returns, leaves the slider
    and the notifications alone, shows the text None and makes [value()]
    answer [v]; [value()] there answers the value last given, and raises
    [IndexError] when none was given. *)
Theorem setValue_without_values (w : LabeledVerticalSlider) (v : Z) :
  values w = [] ->
  (exists w',
      setValue v w = (Ok tt, w') /\
      slider w' = slider w /\
      value_changed w' = value_changed w /\
      lbl_value w' = "None" /\
      value w' = (Ok v, w')) /\
  value w = (match _internal_value w with
             | Some given => Ok given
             | None => Raise IndexError
             end, w).
Proof.
  intros Hv. split.
  - rewrite setValue_unfold, (getClosestValue_nil w v Hv).
    eexists. split; [reflexivity|]. cbn. repeat split.
  - rewrite value_run, Hv, py_getitem_out by (cbn; lia). reflexivity.
Qed.

Lemma setValue_without_values_witness :
  let w := snd (__init__ "FrameRate" [] None PyInt) in
  (exists w',
      setValue 30 w = (Ok tt, w') /\
      slider w' = slider w /\
      value_changed w' = value_changed w /\
      lbl_value w' = "None" /\
      value w' = (Ok 30, w')) /\
  value w = (match _internal_value w with
             | Some given => Ok given
             | None => Raise IndexError
             end, w).
Proof.
  intro w. apply (setValue_without_values w 30). reflexivity.
Defined.

(** ** After [setNewValues] *)

(** X11: [setNewValues] leaves the slider's range as it was. After values of
    length [m] replaced longer ones, a slider move to a position from [m] up
    to the old maximum puts the slider there and raises [AttributeError] for
    [field] in the slot, with no notification. *)
Theorem slider_move_after_shorter_values_raises
        (w : LabeledVerticalSlider) (D : list Z) (i : Z) :
  in_sync w ->
  Z.of_nat (List.length D) <= i <= QSlider.maximum (slider w) ->
  i <> QSlider.value (slider w) ->
  let w1 := snd (setNewValues D w) in
  exists w2,
    user_moves_slider i w1 = (Raise (AttributeError "field"), w2) /\
    values w2 = D /\
    QSlider.value (slider w2) = i /\
    value_changed w2 = value_changed w /\
    lbl_value w2 = lbl_value w.
Proof.
  intros (Hmin & Hmax & Hval) Hi Hne w1.
  assert (Hs1 : slider w1 = slider w) by reflexivity.
  assert (Hv1 : values w1 = D) by reflexivity.
  assert (He1 : value_changed w1 = value_changed w) by reflexivity.
  assert (Hl1 : lbl_value w1 = lbl_value w) by reflexivity.
  clearbody w1. unfold user_moves_slider.
  assert (Hb : QSlider.bound (slider w1) i = i)
    by (rewrite Hs1; unfold QSlider.bound; lia).
  rewrite slider_setValue_changed by (rewrite Hb, Hs1; exact Hne).
  rewrite Hb, _value_changed_missing
    by (apply py_getitem_out; cbn; rewrite Hv1; lia).
  eexists. split; [reflexivity|]. cbn. auto.
Qed.

Lemma slider_move_after_shorter_values_raises_witness :
  let w := snd (__init__ "ExposureTime" [0; 10; 20] None PyInt) in
  let w1 := snd (setNewValues [5] w) in
  exists w2,
    user_moves_slider 2 w1 = (Raise (AttributeError "field"), w2) /\
    values w2 = [5] /\
    QSlider.value (slider w2) = 2 /\
    value_changed w2 = value_changed w /\
    lbl_value w2 = lbl_value w.
Proof.
  intro w. apply (slider_move_after_shorter_values_raises w [5] 2).
  - unfold in_sync. cbn. lia.
  - cbn. lia.
  - cbn. lia.
Defined.

(** X12, for integers: after [setNewValues] stored non-empty values that
    the signal can carry, [setValue] of an integer still returns and shows
    the closest match among the new values, but the slider only goes as far
    as its old maximum: its position is the smaller of the position of the
    closest match and the old maximum. *)
Theorem setValue_after_setNewValues_keeps_old_range
        (w : LabeledVerticalSlider) (D : list Z) (v : Z) :
  in_sync w ->
  D <> [] ->
  Forall converts D ->
  let w1 := snd (setNewValues D w) in
  exists w2 c k,
    setValue v w1 = (Ok tt, w2) /\
    getClosestValue w1 v = Some c /\
    py_index D c = Some k /\
    lbl_value w2 = py_str c /\
    QSlider.maximum (slider w2) = QSlider.maximum (slider w) /\
    QSlider.value (slider w2) = Z.min (Z.of_nat k) (QSlider.maximum (slider w)).
Proof.
  intros Hsync Hne Hconv w1.
  assert (Hs1 : slider w1 = slider w) by reflexivity.
  assert (Hv1 : values w1 = D) by reflexivity.
  clearbody w1. destruct Hsync as (Hmin & Hmax & Hval).
  assert (Hzb : zero_based w1) by (unfold zero_based; rewrite Hs1; lia).
  assert (Hconv1 : Forall converts (values w1)) by (rewrite Hv1; exact Hconv).
  destruct (setValue_run w1 v Hzb Hconv1)
    as (w2 & Hrun & _ & _ & _ & Hlbl & Hrest).
  destruct (getClosestValue_In w1 v) as (c & Hc & _); [congruence|].
  rewrite Hc in Hlbl, Hrest. destruct Hrest as (k & Hk & _ & Hs & _).
  rewrite Hv1 in Hk. exists w2, c, k. repeat split; auto.
  - rewrite Hs. destruct (QSlider_setValue_range (Z.of_nat k) (slider w1)) as [_ ->].
    now rewrite Hs1.
  - rewrite Hs, QSlider_setValue_value, Hs1. unfold QSlider.bound. lia.
Qed.

Lemma setValue_after_setNewValues_keeps_old_range_witness :
  let w := snd (__init__ "ExposureTime" [0; 10; 20] None PyInt) in
  let w1 := snd (setNewValues [0; 7; 14; 21] w) in
  exists w2 c k,
    setValue 21 w1 = (Ok tt, w2) /\
    getClosestValue w1 21 = Some c /\
    py_index [0; 7; 14; 21] c = Some k /\
    lbl_value w2 = py_str c /\
    QSlider.maximum (slider w2) = QSlider.maximum (slider w) /\
    QSlider.value (slider w2) = Z.min (Z.of_nat k) (QSlider.maximum (slider w)).
Proof.
  intro w. apply (setValue_after_setNewValues_keeps_old_range w [0; 7; 14; 21] 21).
  - unfold in_sync. cbn. lia.
  - discriminate.
  - converts_by_computation.
Defined.

(** * Properties of the application *)

Lemma dict_get_set_same {V : Type} (d : list (string * V)) (k : string) (v : V) :
  dict_get (dict_set d k v) k = Some v.
Proof.
  induction d as [|[k' v'] rest IH]; cbn.
  - now rewrite String.eqb_refl.
  - destruct (String.eqb k' k) eqn:He; cbn.
    + now rewrite String.eqb_refl.
    + now rewrite He.
Qed.

Lemma dict_get_set_other {V : Type} (d : list (string * V)) (k k2 : string) (v : V) :
  k2 <> k -> dict_get (dict_set d k v) k2 = dict_get d k2.
Proof.
  intros Hne. induction d as [|[k' v'] rest IH]; cbn.
  - destruct (String.eqb_spec k k2); [congruence|reflexivity].
  - destruct (String.eqb_spec k' k) as [->|Hk]; cbn.
    + destruct (String.eqb_spec k k2); [congruence|reflexivity].
    + destruct (String.eqb_spec k' k2); [reflexivity|exact IH].
Qed.

Lemma label_setText_present (key text old : string) (a : PiCam.t) :
  dict_get (PiCam.status_labels a) key = Some old ->
  PiCam.label_setText key text a =
    (PiCam.Done,
     PiCam.set_status_labels (dict_set (PiCam.status_labels a) key text) a).
Proof.
  intros Hold. unfold PiCam.label_setText. now rewrite Hold.
Qed.

Lemma set_mode_run (a : PiCam.t) (mode : option string) (old : string) :
  dict_get (PiCam.status_labels a) PiCam.FIELD_CUSTOM_STATUS = Some old ->
  exists a',
    PiCam.set_mode mode a = (PiCam.Done, a') /\
    PiCam.ui_config_screen_visible a' = false /\
    PiCam.current_mode a' = mode /\
    PiCam.sliders a' = PiCam.sliders a /\
    PiCam.fields a' = PiCam.fields a /\
    dict_get (PiCam.status_labels a') PiCam.FIELD_CUSTOM_STATUS
      = Some (status_of_mode mode old) /\
    forall key, key <> PiCam.FIELD_CUSTOM_STATUS ->
                dict_get (PiCam.status_labels a') key
                = dict_get (PiCam.status_labels a) key.
Proof.
  intros Hold. unfold PiCam.set_mode, status_of_mode, PiCam.set_status.
  fold PiCam.MODE_CONFIG_SENSOR PiCam.MODE_TAKE_PHOTO PiCam.MODE_TOGGLE_RECORDING.
  destruct (PiCam.mode_is mode PiCam.MODE_CONFIG_SENSOR).
  { eexists. split; [reflexivity|]. cbn. auto 10. }
  destruct (PiCam.mode_is mode PiCam.MODE_TAKE_PHOTO).
  { rewrite (label_setText_present _ _ old) by exact Hold.
    eexists. split; [reflexivity|]. cbn.
    repeat split; auto using dict_get_set_same.
    intros key Hk. now apply dict_get_set_other. }
  destruct (PiCam.mode_is mode PiCam.MODE_TOGGLE_RECORDING).
  { rewrite (label_setText_present _ _ old) by exact Hold.
    eexists. split; [reflexivity|]. cbn.
    repeat split; auto using dict_get_set_same.
    intros key Hk. now apply dict_get_set_other. }
  rewrite (label_setText_present _ _ old) by exact Hold.
  eexists. split; [reflexivity|]. cbn.
  repeat split; auto using dict_get_set_same.
  intros key Hk. now apply dict_get_set_other.
Qed.

(** X13: where the status label exists, [set_mode] returns for every mode,
    records the mode, leaves the configuration screen hidden, also for the
    sensor mode, and touches no label but the status: Photo sets it to
    Taking photo..., Record to Recording..., Sensor leaves it as it was, and
    every other mode, Image and None included, sets it to Ready. *)
Theorem set_mode_hides_config_screen_and_sets_status
        (a : PiCam.t) (mode : option string) (old : string) :
  dict_get (PiCam.status_labels a) PiCam.FIELD_CUSTOM_STATUS = Some old ->
  exists a',
    PiCam.set_mode mode a = (PiCam.Done, a') /\
    PiCam.ui_config_screen_visible a' = false /\
    PiCam.current_mode a' = mode /\
    dict_get (PiCam.status_labels a') PiCam.FIELD_CUSTOM_STATUS
      = Some (if PiCam.mode_is mode "Sensor" then old
              else if PiCam.mode_is mode "Photo" then "Taking photo..."
              else if PiCam.mode_is mode "Record" then "Recording..."
              else "Ready.") /\
    forall key, key <> PiCam.FIELD_CUSTOM_STATUS ->
                dict_get (PiCam.status_labels a') key
                = dict_get (PiCam.status_labels a) key.
Proof.
  intros Hold.
  destruct (set_mode_run a mode old Hold)
    as (a' & Hrun & Hvis & Hmode & _ & _ & Hstatus & Hother).
  exists a'. auto.
Qed.

Lemma set_mode_hides_config_screen_and_sets_status_witness :
  let a := snd (PiCam._setup_ui_status_bar
                  (PiCam.mk None PiCam.sensor_fields [] [] true)) in
  let mode := Some "Image" in
  exists a',
    PiCam.set_mode mode a = (PiCam.Done, a') /\
    PiCam.ui_config_screen_visible a' = false /\
    PiCam.current_mode a' = mode /\
    dict_get (PiCam.status_labels a') PiCam.FIELD_CUSTOM_STATUS
      = Some (if PiCam.mode_is mode "Sensor" then "Ready."
              else if PiCam.mode_is mode "Photo" then "Taking photo..."
              else if PiCam.mode_is mode "Record" then "Recording..."
              else "Ready.") /\
    forall key, key <> PiCam.FIELD_CUSTOM_STATUS ->
                dict_get (PiCam.status_labels a') key
                = dict_get (PiCam.status_labels a) key.
Proof.
  intros a mode.
  apply (set_mode_hides_config_screen_and_sets_status a mode "Ready.").
  reflexivity.
Defined.

Lemma status_of_mode_known (mode : option string) (old : string) :
  status_text_known old -> status_text_known (status_of_mode mode old).
Proof.
  unfold status_of_mode, status_text_known. intros Hold.
  destruct (PiCam.mode_is mode "Sensor"); [exact Hold|].
  destruct (PiCam.mode_is mode "Photo"); [auto|].
  destruct (PiCam.mode_is mode "Record"); auto.
Qed.

Lemma last_cons {A : Type} (l : list A) :
  forall x d, last (x :: l) d = last l x.
Proof.
  induction l as [|y l' IH]; intros x d; [reflexivity|].
  change (last (x :: y :: l') d) with (last (y :: l') d).
  rewrite (IH y d), (IH y x). reflexivity.
Qed.

Lemma set_modes_run (modes : list (option string)) :
  forall (a : PiCam.t) (old : string) (m0 : option string),
    dict_get (PiCam.status_labels a) PiCam.FIELD_CUSTOM_STATUS = Some old ->
    status_text_known old ->
    exists a' txt,
      set_modes (m0 :: modes) a = (PiCam.Done, a') /\
      PiCam.ui_config_screen_visible a' = false /\
      PiCam.current_mode a' = last modes m0 /\
      PiCam.sliders a' = PiCam.sliders a /\
      dict_get (PiCam.status_labels a') PiCam.FIELD_CUSTOM_STATUS = Some txt /\
      status_text_known txt /\
      forall key, key <> PiCam.FIELD_CUSTOM_STATUS ->
                  dict_get (PiCam.status_labels a') key
                  = dict_get (PiCam.status_labels a) key.
Proof.
  induction modes as [|m1 rest IH]; intros a old m0 Hold Hknown.
  - destruct (set_mode_run a m0 old Hold)
      as (a1 & Hrun & Hvis & Hmode & Hsl & _ & Hstatus & Hother).
    cbn [set_modes]. rewrite Hrun.
    exists a1, (status_of_mode m0 old). cbn.
    repeat split; auto using status_of_mode_known.
  - destruct (set_mode_run a m0 old Hold)
      as (a1 & Hrun & Hvis & Hmode & Hsl & _ & Hstatus & Hother).
    destruct (IH a1 (status_of_mode m0 old) m1 Hstatus
                 (status_of_mode_known m0 old Hknown))
      as (a' & txt & Hrun' & Hvis' & Hmode' & Hsl' & Hst' & Hk' & Hother').
    exists a', txt.
    split.
    { change (set_modes (m0 :: m1 :: rest) a)
        with (match PiCam.set_mode m0 a with
              | (PiCam.Done, a2) => set_modes (m1 :: rest) a2
              | failed => failed
              end).
      rewrite Hrun. exact Hrun'. }
    split; [exact Hvis'|]. split; [now rewrite Hmode', last_cons|].
    split; [congruence|]. split; [exact Hst'|]. split; [exact Hk'|].
    intros key Hkey. rewrite Hother', Hother by exact Hkey. reflexivity.
Qed.

(** X14: once [_setup_ui_status_bar] has run, every non-empty sequence of
    [set_mode] calls returns, ends in the last mode given with the
    configuration screen hidden, shows one of the three status texts and
    leaves the six other status labels empty and the sliders as they were. *)
Theorem set_mode_sequence_after_status_bar
        (a : PiCam.t) (m0 : option string) (modes : list (option string)) :
  exists a' txt,
    set_modes (m0 :: modes) (snd (PiCam._setup_ui_status_bar a))
      = (PiCam.Done, a') /\
    PiCam.ui_config_screen_visible a' = false /\
    PiCam.current_mode a' = last modes m0 /\
    PiCam.sliders a' = PiCam.sliders a /\
    dict_get (PiCam.status_labels a') PiCam.FIELD_CUSTOM_STATUS = Some txt /\
    status_text_known txt /\
    map (dict_get (PiCam.status_labels a')) (tl PiCam.STATUS_FIELDS)
      = [Some ""; Some ""; Some ""; Some ""; Some ""; Some ""].
Proof.
  set (a0 := snd (PiCam._setup_ui_status_bar a)).
  assert (H0 : dict_get (PiCam.status_labels a0) PiCam.FIELD_CUSTOM_STATUS
               = Some "Ready.") by reflexivity.
  destruct (set_modes_run modes a0 "Ready." m0 H0)
    as (a' & txt & Hrun & Hvis & Hmode & Hsl & Hst & Hk & Hother).
  { left. reflexivity. }
  exists a', txt. repeat split; auto.
  cbn [map tl PiCam.STATUS_FIELDS].
  rewrite !Hother by (vm_compute; discriminate). reflexivity.
Qed.

(** ** The sliders of the configuration screen *)

Lemma build_sliders_step (name : string) (rest : list string) (a : PiCam.t)
      (f : ControlField.t) (w : LabeledVerticalSlider) :
  dict_get (PiCam.fields a) name = Some f ->
  __init__ name (ControlField.values f) (ControlField.value_default f)
           (ControlField.data_type f) = (Ok tt, w) ->
  PiCam.build_sliders (name :: rest) a =
    PiCam.build_sliders rest
      (PiCam.set_sliders (dict_set (PiCam.sliders a) name w) a).
Proof.
  intros Hf Hw. cbn [PiCam.build_sliders]. now rewrite Hf, Hw.
Qed.

Ltac slider_shows_by_computation :=
  unfold slider_shows, in_sync;
  repeat match goal with
         | |- _ /\ _ => split
         end;
  try (vm_compute; first [reflexivity | discriminate]);
  match goal with
  | |- Sorted Z.lt ?l =>
      let l' := eval vm_compute in l in
      change (Sorted Z.lt l'); repeat constructor
  end.

(** X15: with the sensor controls as [__init__] writes them,
    [_setup_ui_config_screen] returns: no slider's constructor raises. It
    builds the sliders for FrameRate, ExposureTime and AnalogueGain in this
    order, each over strictly ascending values and in step with them, on the
    position of its default (9, 20 and 1) and showing and answering the
    default (10, 200000 and 1); the configuration screen is not visible. *)
Theorem _setup_ui_config_screen_builds_sensor_sliders (a : PiCam.t) :
  (forall name, In name PiCam.CONTROL_FIELDS_SENSOR ->
                dict_get (PiCam.fields a) name
                = dict_get PiCam.sensor_fields name) ->
  exists a' fps exposure gain,
    PiCam._setup_ui_config_screen a = (PiCam.Done, a') /\
    PiCam.sliders a' = [("FrameRate", fps); ("ExposureTime", exposure);
                        ("AnalogueGain", gain)] /\
    PiCam.ui_config_screen_visible a' = false /\
    slider_shows fps 9 10 /\
    slider_shows exposure 20 200000 /\
    slider_shows gain 1 1.
Proof.
  intros Hfields.
  pose proof (Hfields PiCam.FIELD_FPS (or_introl eq_refl)) as Hf.
  pose proof (Hfields PiCam.FIELD_EXPOSURE (or_intror (or_introl eq_refl))) as He.
  pose proof (Hfields PiCam.FIELD_ANALOGUE_GAIN
                      (or_intror (or_intror (or_introl eq_refl)))) as Hg.
  cbn [dict_get PiCam.sensor_fields] in Hf, He, Hg.
  change (String.eqb PiCam.FIELD_FPS PiCam.FIELD_FPS) with true in Hf.
  change (String.eqb PiCam.FIELD_FPS PiCam.FIELD_EXPOSURE) with false in He.
  change (String.eqb PiCam.FIELD_EXPOSURE PiCam.FIELD_EXPOSURE) with true in He.
  change (String.eqb PiCam.FIELD_FPS PiCam.FIELD_ANALOGUE_GAIN) with false in Hg.
  change (String.eqb PiCam.FIELD_EXPOSURE PiCam.FIELD_ANALOGUE_GAIN) with false in Hg.
  change (String.eqb PiCam.FIELD_ANALOGUE_GAIN PiCam.FIELD_ANALOGUE_GAIN) with true in Hg.
  cbn iota in Hf, He, Hg.
  set (fps := snd (__init__ PiCam.FIELD_FPS PiCam.FPS_VALUES (Some 10) PyInt)).
  set (exposure := snd (__init__ PiCam.FIELD_EXPOSURE
                                 (py_range 0 (200000 + 10000) 10000)
                                 (Some 200000) PyInt)).
  set (gain := snd (__init__ PiCam.FIELD_ANALOGUE_GAIN (py_range 0 45 1)
                             (Some 1) PyInt)).
  assert (Hwf : __init__ PiCam.FIELD_FPS PiCam.FPS_VALUES (Some 10) PyInt
                = (Ok tt, fps)) by (vm_compute; reflexivity).
  assert (Hwe : __init__ PiCam.FIELD_EXPOSURE (py_range 0 (200000 + 10000) 10000)
                         (Some 200000) PyInt
                = (Ok tt, exposure)) by (vm_compute; reflexivity).
  assert (Hwg : __init__ PiCam.FIELD_ANALOGUE_GAIN (py_range 0 45 1) (Some 1) PyInt
                = (Ok tt, gain)) by (vm_compute; reflexivity).
  eexists. exists fps, exposure, gain.
  split.
  { unfold PiCam._setup_ui_config_screen, PiCam.CONTROL_FIELDS_SENSOR.
    rewrite (build_sliders_step _ _ (PiCam.set_sliders [] a) _ fps Hf Hwf).
    set (a1 := PiCam.set_sliders (dict_set _ PiCam.FIELD_FPS fps) _).
    rewrite (build_sliders_step _ _ a1 _ exposure He Hwe).
    set (a2 := PiCam.set_sliders (dict_set _ PiCam.FIELD_EXPOSURE exposure) _).
    rewrite (build_sliders_step _ _ a2 _ gain Hg Hwg).
    cbn [PiCam.build_sliders]. reflexivity. }
  split; [reflexivity|]. split; [reflexivity|].
  split; [|split]; slider_shows_by_computation.
Qed.

Lemma _setup_ui_config_screen_builds_sensor_sliders_witness :
  let a := PiCam.mk None PiCam.sensor_fields [] [] true in
  exists a' fps exposure gain,
    PiCam._setup_ui_config_screen a = (PiCam.Done, a') /\
    PiCam.sliders a' = [("FrameRate", fps); ("ExposureTime", exposure);
                        ("AnalogueGain", gain)] /\
    PiCam.ui_config_screen_visible a' = false /\
    slider_shows fps 9 10 /\
    slider_shows exposure 20 200000 /\
    slider_shows gain 1 1.
Proof.
  intro a. apply (_setup_ui_config_screen_builds_sensor_sliders a).
  intros name _. reflexivity.
Defined.

(** * Closest match on values in any order *)

Lemma closest_loop_position (v : Z) (rest : list Z) :
  forall (c : Z) (pre mid : list Z) (r : Z),
    Forall (fun x => Z.abs (v - c) < Z.abs (v - x)) pre ->
    Forall (fun x => Z.abs (v - c) < Z.abs (v - x)) mid ->
    closest_loop v rest (Some c) (Fin (Z.abs (v - c))) = Some r ->
    exists p s,
      (pre ++ c :: mid ++ rest = p ++ r :: s)%list /\
      Forall (fun x => Z.abs (v - r) <= Z.abs (v - x)) p /\
      ((exists t, In t p /\ Z.abs (v - t) = Z.abs (v - r)) \/
       Forall (fun x => Z.abs (v - r) < Z.abs (v - x)) (p ++ s)).
Proof.
  induction rest as [|x rest' IH]; intros c pre mid r Hpre Hmid Hr.
  - cbn in Hr. inversion Hr; subst r. exists pre, mid.
    rewrite app_nil_r. split; [reflexivity|]. split.
    + eapply Forall_impl; [|exact Hpre]. cbn. intros; lia.
    + right. apply Forall_app. auto.
  - cbn [closest_loop ext_eqb ext_ltb] in Hr.
    destruct (Z.eqb_spec (Z.abs (v - x)) (Z.abs (v - c))) as [Heq|Hne].
    + inversion Hr; subst r. exists (pre ++ c :: mid)%list, rest'.
      split; [now rewrite <- app_assoc|]. split.
      * apply Forall_app. split; [|constructor; [lia|]].
        -- eapply Forall_impl; [|exact Hpre]. cbn. intros; lia.
        -- eapply Forall_impl; [|exact Hmid]. cbn. intros; lia.
      * left. exists c. split; [apply in_or_app; cbn; auto|lia].
    + destruct (Z.ltb_spec (Z.abs (v - x)) (Z.abs (v - c))) as [Hlt|Hge].
      * destruct (IH x (pre ++ c :: mid)%list [] r) as (p & s & Heq & Hp & Hcase).
        -- apply Forall_app. split; [|constructor; [lia|]].
           ++ eapply Forall_impl; [|exact Hpre]. cbn. intros; lia.
           ++ eapply Forall_impl; [|exact Hmid]. cbn. intros; lia.
        -- constructor.
        -- exact Hr.
        -- exists p, s. split; [|auto].
           rewrite <- Heq, <- app_assoc. reflexivity.
      * destruct (IH c pre (mid ++ [x])%list r) as (p & s & Heq & Hp & Hcase).
        -- exact Hpre.
        -- apply Forall_app. split; [exact Hmid|]. constructor; [lia|constructor].
        -- exact Hr.
        -- exists p, s. split; [|auto].
           rewrite <- Heq, <- app_assoc. reflexivity.
Qed.

(** X16, for integers: on integer values in any order and an integer
    request, the value [c] that [getClosestValue] returns
    stands at a place of the values where it is at least as close to the
    request as every value before it, and one of two things holds: an earlier
    value is exactly as close (the scan stopped at [c] on the tie, without
    looking at the values after it), or every other value, before and after,
    is strictly farther. *)
Theorem getClosestValue_result_in_any_order
        (w : LabeledVerticalSlider) (v c : Z) :
  getClosestValue w v = Some c ->
  exists p s,
    values w = (p ++ c :: s)%list /\
    Forall (fun x => Z.abs (v - c) <= Z.abs (v - x)) p /\
    ((exists t, In t p /\ Z.abs (v - t) = Z.abs (v - c)) \/
     Forall (fun x => Z.abs (v - c) < Z.abs (v - x)) (p ++ s)).
Proof.
  intros Hc. destruct (values w) as [|x rest] eqn:Hv.
  - rewrite (getClosestValue_nil w v Hv) in Hc. discriminate.
  - rewrite (getClosestValue_cons w v x rest Hv) in Hc.
    destruct (closest_loop_position v rest x [] [] c) as (p & s & Heq & H);
      [constructor|constructor|exact Hc|].
    exists p, s. split; [exact Heq|exact H].
Qed.

Lemma getClosestValue_result_in_any_order_witness :
  let w := snd (__init__ "ExposureTime" [10; 0; 20; 5] None PyInt) in
  exists p s,
    values w = (p ++ 0 :: s)%list /\
    Forall (fun x => Z.abs (5 - 0) <= Z.abs (5 - x)) p /\
    ((exists t, In t p /\ Z.abs (5 - t) = Z.abs (5 - 0)) \/
     Forall (fun x => Z.abs (5 - 0) < Z.abs (5 - x)) (p ++ s)).
Proof.
  intro w. apply (getClosestValue_result_in_any_order w 5 0). reflexivity.
Defined.
